(** * Suxhuk Ordering API: a shallow embedding of [main.py]

    The handlers of [main.py] are translated one by one into functions over
    an explicit MongoDB state.  Python values are dynamically typed, so the
    stored documents are dictionaries of tagged values; floats are IEEE
    binary64 numbers (Rocq's primitive floats), integers are unbounded.
    An exception leaves the writes made before it in place: there is no
    transaction around a handler. *)

From Stdlib Require Import ZArith String Ascii.
From Stdlib Require Import PrimFloat SpecFloat FloatOps FloatAxioms.
From stdpp Require Import gmap strings list fin_maps.

Local Open Scope Z_scope.
Local Set Warnings "-register-all".

(** ** Python floats

    The operations of CPython's [float] that [create_order] relies on and
    that are not IEEE primitives: conversion from [int], [int()] of a float,
    floor division and two-argument [round].  They are computed on the exact
    value [m * 2^e] of the double. *)
Module PyFloat.

(** [float(z)] for an int: round to nearest even, [None] for OverflowError. *)
Definition of_Z (z : Z) : option float :=
  let f := SF2Prim (binary_normalize prec emax z 0 false) in
  if is_infinity f then None else Some f.

(** [int(x)]: truncation towards zero, [None] for nan and the infinities. *)
Definition trunc (x : float) : option Z :=
  match Prim2SF x with
  | S754_zero _ => Some 0
  | S754_finite s m e => Some (cond_Zopp s (Z.shiftl (Zpos m) e))
  | _ => None
  end.

(** C's [floor]. *)
Definition floor (x : float) : float :=
  match Prim2SF x with
  | S754_finite s m e =>
      if 0 <=? e then x
      else SF2Prim (binary_normalize prec emax (Z.shiftl (cond_Zopp s (Zpos m)) e) 0 s)
  | _ => x
  end.

(** C's [fmod]: exact, with the sign of [x]. *)
Definition fmod (x y : float) : float :=
  match Prim2SF x, Prim2SF y with
  | S754_nan, _ | _, S754_nan => nan
  | S754_infinity _, _ => nan
  | _, S754_zero _ => nan
  | S754_zero _, _ => x
  | S754_finite _ _ _, S754_infinity _ => x
  | S754_finite sx mx ex, S754_finite _ my ey =>
      let e := Z.min ex ey in
      let r := Z.rem (Z.shiftl (Zpos mx) (ex - e)) (Z.shiftl (Zpos my) (ey - e)) in
      SF2Prim (binary_normalize prec emax (cond_Zopp sx r) e sx)
  end.

(** [copysign(0.0, y)]. *)
Definition copysign_zero (y : float) : float :=
  if get_sign y then neg_zero else zero.

(** [vx // wx] as [float_floor_div] of floatobject.c computes it; [None] for
    ZeroDivisionError. *)
Definition floor_div (vx wx : float) : option float :=
  if (wx =? 0)%float then None
  else
    let r := fmod vx wx in
    let div := ((vx - r) / wx)%float in
    let div :=
      if negb (r =? 0)%float && negb (Bool.eqb (wx <? 0)%float (r <? 0)%float)
      then (div - 1)%float else div in
    Some (if negb (div =? 0)%float
          then let floordiv := floor div in
               if (0.5 <? div - floordiv)%float then (floordiv + 1)%float
               else floordiv
          else copysign_zero (vx / wx)%float).

(** The double nearest to [n / d] (ties to even), for [0 <= n] and [0 < d]. *)
Definition nearest (s : bool) (n d : Z) : spec_float :=
  match n with
  | Z0 => S754_zero s
  | _ =>
      let k := Z.max 0 (55 + Zdigits2 d - Zdigits2 n) in
      let '(q, r) := Z.div_eucl (Z.shiftl n k) d in
      binary_round_aux prec emax s q (- k) (new_location d r)
  end.

(** [n / d] rounded to an integer, ties to even. *)
Definition half_even (n d : Z) : Z :=
  let '(q, r) := Z.div_eucl n d in
  match 2 * r ?= d with
  | Lt => q
  | Eq => if Z.even q then q else q + 1
  | Gt => q + 1
  end.

(** [round(x, ndigits)] for [0 <= ndigits]: the exact value of [x] is rounded
    to [ndigits] decimals, ties to even, and the decimal result is converted
    back to the nearest double. *)
Definition round (x : float) (ndigits : Z) : float :=
  match Prim2SF x with
  | S754_finite s m e =>
      let p := 10 ^ ndigits in
      let n := if 0 <=? e then Z.shiftl (Zpos m * p) e
               else half_even (Zpos m * p) (Z.shiftl 1 (- e)) in
      SF2Prim (nearest s n p)
  | _ => x
  end.

End PyFloat.

(** ** Python values *)

Definition oid := N.
Definition time := Z.

(** What a stored field or a response field can hold.  [VDatetime t] is a
    [datetime]; [VIsoformat t] is the [str] that [t.isoformat()] returns,
    whose characters are not spelled out. *)
Inductive value :=
| VNone
| VInt (z : Z)
| VFloat (f : float)
| VStr (s : string)
| VDatetime (t : time)
| VIsoformat (t : time)
| VList (l : list value)
| VDict (d : gmap string value).

(** [d.get(k)] and [d.get(k, v)]. *)
Definition get (d : gmap string value) (k : string) : value :=
  default VNone (d !! k).
Definition get_default (d : gmap string value) (k : string) (v : value) : value :=
  default v (d !! k).

(** ** Exceptions and results *)

(** A piece of an f-string: literal text, or an interpolated value. *)
Inductive fragment :=
| Lit (s : string)
| Fmt (v : value).

Inductive exception :=
| HTTPException (status_code : Z) (detail : list fragment)
| ZeroDivisionError
| OverflowError
| ValueError
| TypeError
| AttributeError
| InvalidId
| DuplicateKeyError.

Inductive result (A : Type) :=
| Return (a : A)
| Raise (e : exception).
Arguments Return {A} a.
Arguments Raise {A} e.

Definition bind {A B} (r : result A) (k : A -> result B) : result B :=
  match r with
  | Return a => k a
  | Raise e => Raise e
  end.

(** ** Python numbers: [int] and [float] with the mixed arithmetic of the
    language (an [int] operand is converted when the other is a [float]). *)
Module Py.

Inductive num :=
| Int (z : Z)
| Float (f : float).

Definition to_float (n : num) : result float :=
  match n with
  | Int z => match PyFloat.of_Z z with
             | Some f => Return f
             | None => Raise OverflowError
             end
  | Float f => Return f
  end.

Definition binop (fz : Z -> Z -> result num) (ff : float -> float -> result num)
    (a b : num) : result num :=
  match a, b with
  | Int x, Int y => fz x y
  | _, _ => bind (to_float a) (fun x => bind (to_float b) (fun y => ff x y))
  end.

Definition sub : num -> num -> result num :=
  binop (fun x y => Return (Int (x - y))) (fun x y => Return (Float (x - y)%float)).

Definition mul : num -> num -> result num :=
  binop (fun x y => Return (Int (x * y))) (fun x y => Return (Float (x * y)%float)).

Definition floordiv : num -> num -> result num :=
  binop (fun x y => if y =? 0 then Raise ZeroDivisionError else Return (Int (x / y)))
        (fun x y => match PyFloat.floor_div x y with
                    | Some f => Return (Float f)
                    | None => Raise ZeroDivisionError
                    end).

(** [x % y] on ints. *)
Definition mod_int (x y : Z) : result Z :=
  if y =? 0 then Raise ZeroDivisionError else Return (x mod y).

Definition abs (a : num) : num :=
  match a with
  | Int x => Int (Z.abs x)
  | Float x => Float (PrimFloat.abs x)
  end.

(** [a < 0] and [a > 0]. *)
Definition lt_0 (a : num) : bool :=
  match a with
  | Int x => x <? 0
  | Float x => (x <? 0)%float
  end.
Definition gt_0 (a : num) : bool :=
  match a with
  | Int x => 0 <? x
  | Float x => (0 <? x)%float
  end.

(** [round(a, 2)]. *)
Definition round (a : num) (ndigits : Z) : num :=
  match a with
  | Int x => Int x
  | Float x => Float (PyFloat.round x ndigits)
  end.

(** [int(a)] of a number. *)
Definition int_of_num (a : num) : result Z :=
  match a with
  | Int x => Return x
  | Float x =>
      match PyFloat.trunc x with
      | Some z => Return z
      | None => Raise (if is_nan x then ValueError else OverflowError)
      end
  end.

Definition value_of_num (a : num) : value :=
  match a with
  | Int x => VInt x
  | Float x => VFloat x
  end.

(** The builtins [int(v)] and [float(v)] on a stored value.  Every numeric
    field the handlers write is an int or a float; on any other value the
    builtins are read as raising. *)
Definition int (v : value) : result Z :=
  match v with
  | VInt z => Return z
  | VFloat f => int_of_num (Float f)
  | _ => Raise TypeError
  end.

Definition float (v : value) : result PrimFloat.float :=
  match v with
  | VInt z => to_float (Int z)
  | VFloat f => Return f
  | _ => Raise TypeError
  end.

End Py.

(** ** bson.ObjectId

    An id is twelve bytes, written as 24 hexadecimal digits. *)

Definition hex_digit (c : ascii) : option N :=
  let n := N_of_ascii c in
  if ((48 <=? n) && (n <=? 57))%N then Some (n - 48)%N
  else if ((97 <=? n) && (n <=? 102))%N then Some (n - 87)%N
  else if ((65 <=? n) && (n <=? 70))%N then Some (n - 55)%N
  else None.

Fixpoint fromhex (s : string) (acc : N) : option N :=
  match s with
  | EmptyString => Some acc
  | String c s' =>
      match hex_digit c with
      | Some d => fromhex s' (16 * acc + d)%N
      | None => None
      end
  end.

(** [ObjectId(s)]: raises unless [s] is 24 hexadecimal digits. *)
Definition ObjectId (s : string) : result oid :=
  if Nat.eqb (String.length s) 24 then
    match fromhex s 0%N with
    | Some o => Return o
    | None => Raise InvalidId
    end
  else Raise InvalidId.

Definition hex_char (d : N) : ascii :=
  ascii_of_N (if (d <? 10)%N then d + 48 else d + 87)%N.

Fixpoint tohex (digits : nat) (o : N) (acc : string) : string :=
  match digits with
  | O => acc
  | S n => tohex n (o / 16)%N (String (hex_char (o mod 16)%N) acc)
  end.

(** [str(o)] of an ObjectId. *)
Definition str (o : oid) : string := tohex 24 o EmptyString.

(** ** MongoDB

    A stored document always carries the [_id] that the insertion gave it;
    the other fields are a dictionary.  A collection keeps its documents in
    insertion order, and [_id] is unique in it: inserting a taken id raises.
    New ids are drawn from a counter, as the driver's generator does. *)

Record document := Document { _id : oid; fields : gmap string value }.

Record mongo := Mongo {
  db_customer : list document;
  db_inventory : list document;
  db_order : list document;
  next_oid : oid
}.

Inductive collection := Customer | Inventory | Order.

Definition coll (c : collection) (db : mongo) : list document :=
  match c with
  | Customer => db_customer db
  | Inventory => db_inventory db
  | Order => db_order db
  end.

Definition set_coll (c : collection) (l : list document) (db : mongo) : mongo :=
  match c with
  | Customer => Mongo l (db_inventory db) (db_order db) (next_oid db)
  | Inventory => Mongo (db_customer db) l (db_order db) (next_oid db)
  | Order => Mongo (db_customer db) (db_inventory db) l (next_oid db)
  end.

(** The two filters of [main.py]: a string field, or the id. *)
Inductive query :=
| ByField (k : string) (s : string)
| ById (o : oid).

Definition matches (q : query) (d : document) : bool :=
  match q with
  | ByField k s =>
      match fields d !! k with
      | Some (VStr s') => String.eqb s' s
      | _ => false
      end
  | ById o => (_id d =? o)%N
  end.

(** [$set]: the listed fields are written, the others stay. *)
Definition set_fields (payload : gmap string value) (d : document) : document :=
  Document (_id d) (payload ∪ fields d).

(** The first match is updated; the count of matched documents is returned. *)
Fixpoint update_first (q : query) (payload : gmap string value)
    (l : list document) : list document * Z :=
  match l with
  | [] => ([], 0)
  | d :: l' =>
      if matches q d then (set_fields payload d :: l', 1)
      else let '(l'', n) := update_first q payload l' in (d :: l'', n)
  end.

(** ** Handlers as state transformers *)

Definition M (A : Type) : Type := mongo -> mongo * result A.

Definition ret {A} (a : A) : M A := fun db => (db, Return a).
Definition raise {A} (e : exception) : M A := fun db => (db, Raise e).
Definition pure {A} (r : result A) : M A := fun db => (db, r).

Definition mbind {A B} (m : M A) (k : A -> M B) : M B :=
  fun db =>
    match m db with
    | (db', Return a) => k a db'
    | (db', Raise e) => (db', Raise e)
    end.

Notation "'let*' x ':=' m 'in' k" := (mbind m (fun x => k))
  (at level 10, x name, m at level 100, k at level 200).

(** [try: m  except Exception: raise e]. *)
Definition try_except {A} (m : M A) (e : exception) : M A :=
  fun db =>
    match m db with
    | (db', Return a) => (db', Return a)
    | (db', Raise _) => (db', Raise e)
    end.

Fixpoint for_each {A} (l : list A) (body : A -> M unit) : M unit :=
  match l with
  | [] => ret tt
  | a :: l' => let* _ := body a in for_each l' body
  end.

(** *** pymongo *)

Definition find_one (c : collection) (q : query) : M (option document) :=
  fun db => (db, Return (find (matches q) (coll c db))).

(** [update_one(q, {"$set": payload})], returning [matched_count]. *)
Definition update_one (c : collection) (q : query) (payload : gmap string value) : M Z :=
  fun db =>
    let '(l, n) := update_first q payload (coll c db) in
    (set_coll c l db, Return n).

Definition insert_one (c : collection) (data : gmap string value) : M oid :=
  fun db =>
    let o := next_oid db in
    let db := Mongo (db_customer db) (db_inventory db) (db_order db) (o + 1)%N in
    if existsb (matches (ById o)) (coll c db) then (db, Raise DuplicateKeyError)
    else (set_coll c (coll c db ++ [Document o data]) db, Return o).

(** *** database.py *)

(** Modelled from the spec: [create_document] of [database.py], which is not
    among the sources.  The persistence gateway inserts the record, assigns it
    a unique identifier and hands that identifier back, as a string. *)
Definition create_document (c : collection) (data : gmap string value) : M string :=
  let* o := insert_one c data in ret (str o).

(** Modelled from the spec: [get_documents] of [database.py], the gateway's
    find-many without a filter: every record of the collection. *)
Definition get_documents (c : collection) : M (list document) :=
  fun db => (db, Return (coll c db)).

(** ** Request models (pydantic) *)

Inductive Product := suxhuk | mish_te_teren.

Definition product_name (p : Product) : string :=
  match p with
  | suxhuk => "suxhuk"
  | mish_te_teren => "mish_te_teren"
  end.

Inductive Status := received | in_production | ready_for_collection.

Definition status_name (s : Status) : string :=
  match s with
  | received => "received"
  | in_production => "in_production"
  | ready_for_collection => "ready_for_collection"
  end.

Definition optional {A} (f : A -> value) (o : option A) : value :=
  match o with
  | Some a => f a
  | None => VNone
  end.

Module PaymentMethod.
Record t := {
  label : string;
  brand : option string;
  last4 : option string;
  details : option (gmap string value)
}.
Definition model_dump (p : t) : gmap string value :=
  <["label" := VStr (label p)]>
  (<["brand" := optional VStr (brand p)]>
  (<["last4" := optional VStr (last4 p)]>
  (<["details" := optional VDict (details p)]> ∅))).
End PaymentMethod.

Module CustomerIn.
Record t := {
  name : string;
  email : string;
  phone : option string;
  address : option string;
  payment_methods : list PaymentMethod.t
}.
Definition model_dump (data : t) : gmap string value :=
  <["name" := VStr (name data)]>
  (<["email" := VStr (email data)]>
  (<["phone" := optional VStr (phone data)]>
  (<["address" := optional VStr (address data)]>
  (<["payment_methods" :=
       VList ((fun p => VDict (PaymentMethod.model_dump p)) <$> payment_methods data)]> ∅)))).
End CustomerIn.

Module InventoryItemIn.
Record t := {
  product : Product;
  price_per_kg : float;
  min_kg : Z;
  step_kg : Z;
  available_kg : float;
  batch_threshold_kg : Z
}.
Definition model_dump (item : t) : gmap string value :=
  <["product" := VStr (product_name (product item))]>
  (<["price_per_kg" := VFloat (price_per_kg item)]>
  (<["min_kg" := VInt (min_kg item)]>
  (<["step_kg" := VInt (step_kg item)]>
  (<["available_kg" := VFloat (available_kg item)]>
  (<["batch_threshold_kg" := VInt (batch_threshold_kg item)]> ∅))))).
(** The [Field] constraints: [ge=0] on the price, [ge=1] on the three ints. *)
Definition valid (item : t) : Prop :=
  (0 <=? price_per_kg item)%float = true /\ 1 <= min_kg item /\
  1 <= step_kg item /\ 1 <= batch_threshold_kg item.
End InventoryItemIn.

Module OrderIn.
Record t := {
  customer_id : string;
  product : Product;
  quantity_kg : Z;
  notes : option string
}.
(** [quantity_kg: int = Field(..., ge=1)]. *)
Definition valid (order : t) : Prop := 1 <= quantity_kg order.
End OrderIn.

Module OrderStatusUpdate.
Record t := { status : Status }.
End OrderStatusUpdate.

(** ** Helpers *)

(** [to_str_id]: [None] stays [None]; otherwise [_id] becomes the string
    field [id] and every datetime becomes its ISO string. *)
Definition to_str_id (doc : option document) : option (gmap string value) :=
  match doc with
  | None => None
  | Some doc =>
      let d := <["id" := VStr (str (_id doc))]> (fields doc) in
      Some ((fun v => match v with VDatetime t => VIsoformat t | _ => v end) <$> d)
  end.

(** [v.isoformat()]: only a datetime has the method. *)
Definition isoformat (v : value) : result value :=
  match v with
  | VDatetime t => Return (VIsoformat t)
  | _ => Raise AttributeError
  end.

(** Building a response model from the dictionary: unpacking [None] is a
    TypeError.  The response model's own
    projection of the dictionary onto its declared fields is not modelled:
    the response is the dictionary. *)
Definition response (d : option (gmap string value)) : M (gmap string value) :=
  match d with
  | Some d => ret d
  | None => raise TypeError
  end.

Fixpoint traverse {A B} (f : A -> M B) (l : list A) : M (list B) :=
  match l with
  | [] => ret []
  | a :: l' => let* b := f a in let* bs := traverse f l' in ret (b :: bs)
  end.

(** [v == s] for a string [s]. *)
Definition is_str (s : string) (v : value) : bool :=
  match v with
  | VStr s' => String.eqb s' s
  | _ => false
  end.

(** ** Customers *)

Definition list_customers : M (list (gmap string value)) :=
  let* docs := get_documents Customer in
  traverse (fun d => response (to_str_id (Some d))) docs.

Definition upsert_customer (data : CustomerIn.t) (now : time) : M (gmap string value) :=
  let* existing := find_one Customer (ByField "email" (CustomerIn.email data)) in
  let payload := CustomerIn.model_dump data in
  let payload :=
    <["updated_at" := VDatetime now]>
    (<["created_at" := match existing with
                       | Some e => get (fields e) "created_at"
                       | None => VDatetime now
                       end]> payload) in
  let* doc :=
    match existing with
    | Some e =>
        let* _ := update_one Customer (ById (_id e)) payload in
        find_one Customer (ById (_id e))
    | None =>
        let* new_id := create_document Customer payload in
        let* o := pure (ObjectId new_id) in
        find_one Customer (ById o)
    end in
  response (to_str_id doc).

Definition get_customer (customer_id : string) : M (gmap string value) :=
  let* doc :=
    try_except
      (let* o := pure (ObjectId customer_id) in find_one Customer (ById o))
      (HTTPException 400 [Lit "Invalid customer id"]) in
  match doc with
  | None => raise (HTTPException 404 [Lit "Customer not found"])
  | Some _ => response (to_str_id doc)
  end.

Definition update_customer (customer_id : string) (data : CustomerIn.t) (now : time)
    : M (gmap string value) :=
  let* o := try_except (pure (ObjectId customer_id))
              (HTTPException 400 [Lit "Invalid customer id"]) in
  let payload := <["updated_at" := VDatetime now]> (CustomerIn.model_dump data) in
  let* matched_count := update_one Customer (ById o) payload in
  if matched_count =? 0 then raise (HTTPException 404 [Lit "Customer not found"])
  else
  let* doc := find_one Customer (ById o) in
  response (to_str_id doc).

(** ** Inventory *)

(** The default rows; the same two literals are written out in
    [list_inventory] and in [seed_defaults]. *)
Definition suxhuk_defaults : gmap string value :=
  <["product" := VStr "suxhuk"]>
  (<["price_per_kg" := VFloat 50]>
  (<["min_kg" := VInt 1]>
  (<["step_kg" := VInt 1]>
  (<["available_kg" := VInt 0]>
  (<["batch_threshold_kg" := VInt 15]> ∅))))).

Definition mish_te_teren_defaults : gmap string value :=
  <["product" := VStr "mish_te_teren"]>
  (<["price_per_kg" := VFloat 65]>
  (<["min_kg" := VInt 3]>
  (<["step_kg" := VInt 1]>
  (<["available_kg" := VInt 0]>
  (<["batch_threshold_kg" := VInt 15]> ∅))))).

Definition list_inventory : M (list (gmap string value)) :=
  let* docs := get_documents Inventory in
  let existing_products := (fun d => get (fields d) "product") <$> docs in
  let defaults :=
    (if negb (existsb (is_str "suxhuk") existing_products)
     then [suxhuk_defaults] else []) ++
    (if negb (existsb (is_str "mish_te_teren") existing_products)
     then [mish_te_teren_defaults] else []) in
  let* _ := for_each defaults
              (fun item => let* _ := create_document Inventory item in ret tt) in
  let* docs := get_documents Inventory in
  traverse (fun d => response (to_str_id (Some d))) docs.

Definition create_or_update_inventory (item : InventoryItemIn.t) (now : time)
    : M (gmap string value) :=
  let* existing :=
    find_one Inventory (ByField "product" (product_name (InventoryItemIn.product item))) in
  let payload := <["updated_at" := VDatetime now]> (InventoryItemIn.model_dump item) in
  let* doc :=
    match existing with
    | Some e =>
        let* _ := update_one Inventory (ById (_id e)) payload in
        find_one Inventory (ById (_id e))
    | None =>
        let* new_id := create_document Inventory payload in
        let* o := pure (ObjectId new_id) in
        find_one Inventory (ById o)
    end in
  response (to_str_id doc).

Definition update_inventory (product : string) (item : InventoryItemIn.t) (now : time)
    : M (gmap string value) :=
  if negb (String.eqb (product_name (InventoryItemIn.product item)) product) then
    raise (HTTPException 400 [Lit "Product path and body mismatch"])
  else
  let* existing := find_one Inventory (ByField "product" product) in
  match existing with
  | None => raise (HTTPException 404 [Lit "Inventory item not found"])
  | Some existing =>
      let payload := <["updated_at" := VDatetime now]> (InventoryItemIn.model_dump item) in
      let* _ := update_one Inventory (ById (_id existing)) payload in
      let* doc := find_one Inventory (ById (_id existing)) in
      response (to_str_id doc)
  end.

(** ** Orders *)

(** [now d] is the clock while the order [d] is being listed; it is read only
    if [created_at] is still a datetime after [to_str_id]. *)
Definition list_orders (now : document -> time) : M (list (gmap string value)) :=
  let* docs := get_documents Order in
  traverse
    (fun doc =>
       match to_str_id (Some doc) with
       | None => raise TypeError
       | Some d =>
           let* created_at :=
             pure (match get d "created_at" with
                   | VDatetime _ =>
                       isoformat (get_default d "created_at" (VDatetime (now doc)))
                   | v => Return v
                   end) in
           response (Some (<["created_at" := created_at]> d))
       end)
    docs.

(** The three readings of the clock in [create_order]: [created_at] and
    [updated_at] of the order, then [updated_at] of the inventory record. *)
Definition create_order (order : OrderIn.t) (now1 now2 now3 : time)
    : M (gmap string value) :=
  let quantity_kg := OrderIn.quantity_kg order in
  (* Validate customer exists *)
  let* cust :=
    try_except
      (let* o := pure (ObjectId (OrderIn.customer_id order)) in
       find_one Customer (ById o))
      (HTTPException 400 [Lit "Invalid customer id"]) in
  match cust with
  | None => raise (HTTPException 404 [Lit "Customer not found"])
  | Some _ =>
  (* Load inventory item *)
  let* inv := find_one Inventory (ByField "product" (product_name (OrderIn.product order))) in
  match inv with
  | None => raise (HTTPException 400 [Lit "Inventory for product not configured yet"])
  | Some inv =>
  let inv_get := get_default (fields inv) in
  (* Enforce min and step *)
  let* min := pure (Py.int (inv_get "min_kg" (VInt 1))) in
  if quantity_kg <? min then
    raise (HTTPException 400
             [Lit "Minimum order is "; Fmt (get (fields inv) "min_kg"); Lit " kg"])
  else
  let* step := pure (Py.int (inv_get "step_kg" (VInt 1))) in
  let* r := pure (Py.mod_int quantity_kg step) in
  if negb (r =? 0) then
    raise (HTTPException 400
             [Lit "Quantity must be in increments of "; Fmt (VInt step); Lit " kg"])
  else
  (* Calculate total and batch index based on deficit *)
  let* price_per_kg := pure (Py.float (inv_get "price_per_kg" (VInt 0))) in
  let* product := pure (Py.mul (Py.Float price_per_kg) (Py.Int quantity_kg)) in
  let total := Py.round product 2 in
  let* available := pure (Py.float (inv_get "available_kg" (VInt 0))) in
  let* new_available := pure (Py.sub (Py.Float available) (Py.Int quantity_kg)) in
  let deficit := if Py.lt_0 new_available then Py.abs new_available else Py.Int 0 in
  let* threshold := pure (Py.int (inv_get "batch_threshold_kg" (VInt 15))) in
  let* batch_index :=
    pure (if Py.gt_0 deficit
          then bind (Py.sub deficit (Py.Int 1))
                 (fun d => Py.floordiv d (Py.Int threshold))
          else Return (Py.Int 0)) in
  let* batch_index := pure (Py.int_of_num batch_index) in
  let order_doc :=
    <["customer_id" := VStr (OrderIn.customer_id order)]>
    (<["product" := VStr (product_name (OrderIn.product order))]>
    (<["quantity_kg" := VInt quantity_kg]>
    (<["total_price_nzd" := Py.value_of_num total]>
    (<["status" := VStr "received"]>
    (<["notes" := optional VStr (OrderIn.notes order)]>
    (<["batch_index" := VInt batch_index]>
    (<["created_at" := VDatetime now1]>
    (<["updated_at" := VDatetime now2]> ∅)))))))) in
  let* new_id := create_document Order order_doc in
  (* Update inventory available kg *)
  let* _ := update_one Inventory (ById (_id inv))
              (<["available_kg" := Py.value_of_num new_available]>
               (<["updated_at" := VDatetime now3]> ∅)) in
  let* o := pure (ObjectId new_id) in
  let* saved := find_one Order (ById o) in
  let saved := to_str_id saved in
  (* saved["created_at"] = saved.get("created_at").isoformat() *)
  match saved with
  | None => raise AttributeError
  | Some saved =>
      let* created_at := pure (isoformat (get saved "created_at")) in
      response (Some (<["created_at" := created_at]> saved))
  end
  end
  end.

Definition update_order_status (order_id : string) (body : OrderStatusUpdate.t)
    (now : time) : M (gmap string value) :=
  let* o := try_except (pure (ObjectId order_id))
              (HTTPException 400 [Lit "Invalid order id"]) in
  let* matched_count :=
    update_one Order (ById o)
      (<["status" := VStr (status_name (OrderStatusUpdate.status body))]>
       (<["updated_at" := VDatetime now]> ∅)) in
  if matched_count =? 0 then raise (HTTPException 404 [Lit "Order not found"])
  else
  let* doc := find_one Order (ById o) in
  match to_str_id doc with
  | None => raise AttributeError
  | Some out =>
      let out :=
        match get out "created_at" with
        | VDatetime t => <["created_at" := VIsoformat t]> out
        | _ => out
        end in
      response (Some out)
  end.

(** ** Seeding *)

(** [item["product"]], a string in both default rows. *)
Definition item_product (item : gmap string value) : string :=
  match get item "product" with
  | VStr s => s
  | _ => EmptyString
  end.

(** The body of the loop of [seed_defaults]. *)
Definition seed_one (item : gmap string value) : M unit :=
  let* existing := find_one Inventory (ByField "product" (item_product item)) in
  match existing with
  | Some e => let* _ := update_one Inventory (ById (_id e)) item in ret tt
  | None => let* _ := create_document Inventory item in ret tt
  end.

Definition seed_defaults : M (gmap string value) :=
  let defaults := [suxhuk_defaults; mish_te_teren_defaults] in
  let* _ := for_each defaults seed_one in
  ret (<["status" := VStr "ok"]> ∅).

(** ** The API as a transition system

    The requests that can write; the other endpoints only read. *)
Inductive request :=
| PostCustomers (data : CustomerIn.t) (now : time)
| PutCustomer (customer_id : string) (data : CustomerIn.t) (now : time)
| GetInventory
| PostInventory (item : InventoryItemIn.t) (now : time)
| PutInventory (product : string) (item : InventoryItemIn.t) (now : time)
| PostOrders (order : OrderIn.t) (now1 now2 now3 : time)
| PatchOrderStatus (order_id : string) (body : OrderStatusUpdate.t) (now : time)
| PostSeed.

(** ** Vocabulary of the properties *)

(** The state a handler leaves behind. *)
Definition exec {A} (m : M A) (db : mongo) : mongo := fst (m db).

(** The state after a request. *)
Definition handle (r : request) : mongo -> mongo :=
  match r with
  | PostCustomers data now => exec (upsert_customer data now)
  | PutCustomer customer_id data now => exec (update_customer customer_id data now)
  | GetInventory => exec list_inventory
  | PostInventory item now => exec (create_or_update_inventory item now)
  | PutInventory product item now => exec (update_inventory product item now)
  | PostOrders order now1 now2 now3 => exec (create_order order now1 now2 now3)
  | PatchOrderStatus order_id body now => exec (update_order_status order_id body now)
  | PostSeed => exec seed_defaults
  end.

(** The states the API can bring an empty database to. *)
Inductive reachable : mongo -> Prop :=
| reachable_empty (n : oid) : reachable (Mongo [] [] [] n)
| reachable_handle (r : request) (db : mongo) :
    reachable db -> reachable (handle r db).

(** [m] keeps the property [P] of the database, whatever it answers. *)
Definition preserves {A} (P : mongo -> Prop) (m : M A) : Prop :=
  forall db, P db -> P (fst (m db)).

(** No document of any collection was written. *)
Definition unchanged (db db' : mongo) : Prop :=
  db_customer db' = db_customer db /\ db_inventory db' = db_inventory db /\
  db_order db' = db_order db.

(** The order [d] was persisted: it is the one record added to the orders. *)
Definition placed (db db' : mongo) (d : document) : Prop :=
  db_order db' = db_order db ++ [d].

(** [deficit = abs(new_available) if new_available < 0 else 0]. *)
Definition deficit (new_available : Py.num) : Py.num :=
  if Py.lt_0 new_available then Py.abs new_available else Py.Int 0.

(** [floor((deficit - 1) / threshold)], as the int that is stored. *)
Definition floor_of_quotient (deficit : Py.num) (threshold : Z) : result Z :=
  bind (Py.sub deficit (Py.Int 1))
    (fun d => bind (Py.floordiv d (Py.Int threshold)) Py.int_of_num).

(** The dictionary [order_doc] of [create_order]. *)
Definition order_doc (order : OrderIn.t) (total : Py.num) (batch_index : Z)
    (now1 now2 : time) : gmap string value :=
  <["customer_id" := VStr (OrderIn.customer_id order)]>
  (<["product" := VStr (product_name (OrderIn.product order))]>
  (<["quantity_kg" := VInt (OrderIn.quantity_kg order)]>
  (<["total_price_nzd" := Py.value_of_num total]>
  (<["status" := VStr "received"]>
  (<["notes" := optional VStr (OrderIn.notes order)]>
  (<["batch_index" := VInt batch_index]>
  (<["created_at" := VDatetime now1]>
  (<["updated_at" := VDatetime now2]> ∅)))))))).

(** The [$set] of [create_order] on the inventory record. *)
Definition debit (new_available : Py.num) (now3 : time) : gmap string value :=
  <["available_kg" := Py.value_of_num new_available]>
  (<["updated_at" := VDatetime now3]> ∅).

(** Everything [create_order] checks and computes before it writes: the
    customer resolves, the product has the inventory record [inv], the
    quantity passes the minimum and the step, and the price, the new stock
    and the batch index evaluate to [total], [new_available] and
    [batch_index]. *)
Record accepted (db : mongo) (order : OrderIn.t) (inv : document)
    (total new_available : Py.num) (batch_index : Z) : Prop := {
  acc_customer : exists o cust,
    ObjectId (OrderIn.customer_id order) = Return o /\
    find (matches (ById o)) (db_customer db) = Some cust;
  acc_inventory :
    find (matches (ByField "product" (product_name (OrderIn.product order))))
      (db_inventory db) = Some inv;
  acc_min : exists min,
    Py.int (get_default (fields inv) "min_kg" (VInt 1)) = Return min /\
    min <= OrderIn.quantity_kg order;
  acc_step : exists step,
    Py.int (get_default (fields inv) "step_kg" (VInt 1)) = Return step /\
    step <> 0 /\ OrderIn.quantity_kg order mod step = 0;
  acc_total : exists price_per_kg product,
    Py.float (get_default (fields inv) "price_per_kg" (VInt 0)) = Return price_per_kg /\
    Py.mul (Py.Float price_per_kg) (Py.Int (OrderIn.quantity_kg order)) = Return product /\
    total = Py.round product 2;
  acc_available : exists available,
    Py.float (get_default (fields inv) "available_kg" (VInt 0)) = Return available /\
    Py.sub (Py.Float available) (Py.Int (OrderIn.quantity_kg order)) = Return new_available;
  acc_batch : exists threshold b,
    Py.int (get_default (fields inv) "batch_threshold_kg" (VInt 15)) = Return threshold /\
    (if Py.gt_0 (deficit new_available)
     then bind (Py.sub (deficit new_available) (Py.Int 1))
            (fun d => Py.floordiv d (Py.Int threshold))
     else Return (Py.Int 0)) = Return b /\
    Py.int_of_num b = Return batch_index;
  acc_fresh : existsb (matches (ById (next_oid db))) (db_order db) = false
}.

(** Storage invariant: ids are unique within a collection and were all drawn
    from the counter. *)
Definition unique_ids (l : list document) : Prop := NoDup (_id <$> l).

Definition wf (db : mongo) : Prop :=
  forall c, unique_ids (coll c db) /\
            Forall (fun d => (_id d < next_oid db)%N) (coll c db).

(** How many documents of [l] the filter [q] selects. *)
Definition count (q : query) (l : list document) : nat :=
  length (List.filter (matches q) l).

(** The dictionary that [upsert_customer] writes when the stored
    [created_at] is [created_at]. *)
Definition customer_payload (data : CustomerIn.t) (created_at : value) (now : time)
    : gmap string value :=
  <["updated_at" := VDatetime now]>
  (<["created_at" := created_at]> (CustomerIn.model_dump data)).

(** [p in existing_products], the test of [list_inventory]. *)
Definition has_product (p : string) (docs : list document) : bool :=
  existsb (is_str p) ((fun d => get (fields d) "product") <$> docs).

(** The default rows [list_inventory] finds missing. *)
Definition missing_defaults (docs : list document) : list (gmap string value) :=
  (if has_product "suxhuk" docs then [] else [suxhuk_defaults]) ++
  (if has_product "mish_te_teren" docs then [] else [mish_te_teren_defaults]).

(** The documents that inserting [items] one after the other creates, the
    counter standing at [n]. *)
Fixpoint number (n : oid) (items : list (gmap string value)) : list document :=
  match items with
  | [] => []
  | item :: items' => Document n item :: number (n + 1)%N items'
  end.

(** A stored document as a listing shows it: the value of [to_str_id]. *)
Definition entry (d : document) : gmap string value :=
  (fun v => match v with VDatetime t => VIsoformat t | _ => v end)
    <$> <["id" := VStr (str (_id d))]> (fields d).

(** ** Scenarios *)

Definition empty_db : mongo := Mongo [] [] [] 0%N.

Definition alice : CustomerIn.t := {|
  CustomerIn.name := "Alice";
  CustomerIn.email := "alice@example.nz";
  CustomerIn.phone := None;
  CustomerIn.address := None;
  CustomerIn.payment_methods := []
|}.

(** A fresh shop: Alice registers (she gets id 0), then the first listing of
    the inventory seeds the two default rows. *)
Definition shop : mongo :=
  exec list_inventory (exec (upsert_customer alice 1) empty_db).

(** An order by Alice. *)
Definition order_of (product : Product) (quantity_kg : Z) : OrderIn.t := {|
  OrderIn.customer_id := str 0%N;
  OrderIn.product := product;
  OrderIn.quantity_kg := quantity_kg;
  OrderIn.notes := None
|}.

(** Alice alone, before any inventory exists. *)
Definition registered : mongo := exec (upsert_customer alice 1) empty_db.

(** The administrator records half a kilogram of suxhuk in stock. *)
Definition half_kg_in_stock : InventoryItemIn.t := {|
  InventoryItemIn.product := suxhuk;
  InventoryItemIn.price_per_kg := 50;
  InventoryItemIn.min_kg := 1;
  InventoryItemIn.step_kg := 1;
  InventoryItemIn.available_kg := 0.5;
  InventoryItemIn.batch_threshold_kg := 15
|}.

Definition stocked : mongo :=
  exec (create_or_update_inventory half_kg_in_stock 5) shop.

(** The administrator sells suxhuk from 3 kg up, in steps of 2 kg. *)
Definition by_two_from_three : InventoryItemIn.t := {|
  InventoryItemIn.product := suxhuk;
  InventoryItemIn.price_per_kg := 50;
  InventoryItemIn.min_kg := 3;
  InventoryItemIn.step_kg := 2;
  InventoryItemIn.available_kg := 0;
  InventoryItemIn.batch_threshold_kg := 15
|}.

Definition custom_shop : mongo :=
  exec (create_or_update_inventory by_two_from_three 5) shop.


(** Alice again, under the same email and another name. *)
Definition alicia : CustomerIn.t := {|
  CustomerIn.name := "Alicia";
  CustomerIn.email := "alice@example.nz";
  CustomerIn.phone := Some "021 555 0100";
  CustomerIn.address := None;
  CustomerIn.payment_methods := []
|}.

(** The seeded shop after Alice ordered 50 kg of suxhuk (order id 3). *)
Definition busy_shop : mongo :=
  exec (create_order (order_of suxhuk 50) 10 11 12) shop.

(** The administrator sets a price of 80.0 and 12.5 kg of stock for
    mish te teren. *)
Definition priced_item : InventoryItemIn.t := {|
  InventoryItemIn.product := mish_te_teren;
  InventoryItemIn.price_per_kg := 80;
  InventoryItemIn.min_kg := 2;
  InventoryItemIn.step_kg := 2;
  InventoryItemIn.available_kg := 12.5;
  InventoryItemIn.batch_threshold_kg := 20
|}.

Definition priced_shop : mongo :=
  exec (create_or_update_inventory priced_item 20) busy_shop.

(** At most one inventory record per product, each for a fixed product: the
    data model's invariant, kept by every handler that inserts. *)
Definition one_record_per_product (l : list document) : Prop :=
  forall i j di dj p,
    l !! i = Some di -> l !! j = Some dj ->
    matches (ByField "product" p) di = true ->
    matches (ByField "product" p) dj = true -> i = j.

Definition one_product (db : mongo) : Prop :=
  one_record_per_product (db_inventory db).

(** The product a record is for. *)
Definition product_of (d : document) : option string :=
  match fields d !! "product" with
  | Some (VStr s) => Some s
  | _ => None
  end.

(** What one turn of the loop of [seed_defaults] does to the inventory, the
    counter standing at [n]. *)
Definition seed_list (item : gmap string value) (n : oid) (l : list document)
    : list document :=
  match find (matches (ByField "product" (item_product item))) l with
  | Some e => fst (update_first (ById (_id e)) item l)
  | None => l ++ [Document n item]
  end.

(** The default row of a product. *)
Definition defaults_of (p : Product) : gmap string value :=
  match p with
  | suxhuk => suxhuk_defaults
  | mish_te_teren => mish_te_teren_defaults
  end.

(** ** Further vocabulary and scenarios *)

(** An order as [list_orders] shows it. *)
Definition order_entry (d : document) : gmap string value :=
  <["created_at" := get (entry d) "created_at"]> (entry d).


(** Bob, a second customer. *)
Definition bob : CustomerIn.t := {|
  CustomerIn.name := "Bob";
  CustomerIn.email := "bob@example.nz";
  CustomerIn.phone := None;
  CustomerIn.address := None;
  CustomerIn.payment_methods := []
|}.

(** Alice (id 0) and Bob (id 1). *)
Definition two_customers : mongo := exec (upsert_customer bob 2) registered.

(** The first record of the item's product holds every field of [item]:
    writing [item] into it again changes nothing. *)
Definition seeded (item : gmap string value) (l : list document) : Prop :=
  exists i e,
    l !! i = Some e /\
    find (matches (ByField "product" (item_product item))) l = Some e /\
    item ∪ fields e = fields e.

(** The collections a request may write. *)
Definition writes (r : request) (c : collection) : bool :=
  match r, c with
  | (PostCustomers _ _ | PutCustomer _ _ _), Customer => true
  | (GetInventory | PostInventory _ _ | PutInventory _ _ _ | PostSeed), Inventory => true
  | PostOrders _ _ _ _, (Order | Inventory) => true
  | PatchOrderStatus _ _ _, Order => true
  | _, _ => false
  end.

(** Since the state with ids [ids] in [c] and counter [n], ids were only
    added to [c], all of them drawn from the counter. *)
Definition grown (c : collection) (ids : list oid) (n : oid) (db : mongo) : Prop :=
  exists new,
    _id <$> coll c db = ids ++ new /\
    Forall (fun o => (n <= o < next_oid db)%N) new /\
    (n <= next_oid db)%N.

(** * Properties *)

(** ** Lists of documents *)

Lemma find_lookup (q : query) (l : list document) (d : document) :
  find (matches q) l = Some d ->
  exists i, l !! i = Some d /\ matches q d = true /\
            forall j d', (j < i)%nat -> l !! j = Some d' -> matches q d' = false.
Proof.
  induction l as [|a l IH]; cbn; [done|].
  destruct (matches q a) eqn:Ha.
  - intros [= ->]. exists 0%nat. repeat split; [done|]. intros j d' Hj. lia.
  - intros [i (Hi & Hd & Hfirst)]%IH. exists (S i). repeat split; [done..|].
    intros [|j] d' Hj; cbn; [by intros [= ->]|]. apply Hfirst. lia.
Qed.

Lemma find_None_Forall (q : query) (l : list document) :
  find (matches q) l = None -> Forall (fun d => matches q d = false) l.
Proof.
  induction l as [|a l IH]; cbn; [constructor|].
  destruct (matches q a) eqn:Ha; [done|]. constructor; auto.
Qed.


Lemma update_first_lookup (q : query) payload (l : list document) i d :
  l !! i = Some d -> matches q d = true ->
  (forall j d', (j < i)%nat -> l !! j = Some d' -> matches q d' = false) ->
  update_first q payload l = (<[i := set_fields payload d]> l, 1).
Proof.
  revert i. induction l as [|a l IH]; intros [|i]; cbn; try done.
  - intros [= ->] -> _. done.
  - intros Hi Hd Hfirst. rewrite (Hfirst 0%nat a); [|lia|done].
    rewrite (IH i); [done..|]. intros j d' Hj Hd'. apply (Hfirst (S j)); [lia|done].
Qed.

Lemma unique_ids_first (l : list document) i d :
  unique_ids l -> l !! i = Some d ->
  forall j d', (j < i)%nat -> l !! j = Some d' -> matches (ById (_id d)) d' = false.
Proof.
  intros Hnd Hi j d' Hj Hd'. cbn. apply N.eqb_neq. intros Heq.
  assert (j = i); [|lia].
  eapply NoDup_lookup; [exact Hnd| |].
  - by rewrite list_lookup_fmap, Hd'.
  - by rewrite list_lookup_fmap, Hi, Heq.
Qed.

(** With unique ids, an update by the id of a stored document rewrites that
    document in place and leaves every other one alone. *)
Lemma update_first_by_id payload (l : list document) i d :
  unique_ids l -> l !! i = Some d ->
  update_first (ById (_id d)) payload l = (<[i := set_fields payload d]> l, 1).
Proof.
  intros Hnd Hi. apply update_first_lookup; [done| |by eapply unique_ids_first].
  cbn. apply N.eqb_refl.
Qed.

(** ** Floats *)

Lemma abs_of_negative (x : float) :
  (x <? 0)%float = true -> (0 <? PrimFloat.abs x)%float = true.
Proof.
  rewrite !ltb_spec, abs_spec. change (Prim2SF 0) with (S754_zero false).
  destruct (Prim2SF x) as [s|s| |s m e]; cbn; try done; by destruct s.
Qed.

(** The deficit is the int 0 or a positive float, never anything between. *)
Lemma deficit_cases (available : float) (quantity_kg : Z) (new_available : Py.num) :
  Py.sub (Py.Float available) (Py.Int quantity_kg) = Return new_available ->
  (Py.lt_0 new_available = false /\ deficit new_available = Py.Int 0) \/
  (Py.lt_0 new_available = true /\ Py.gt_0 (deficit new_available) = true).
Proof.
  unfold Py.sub, Py.binop, bind, Py.to_float.
  destruct (PyFloat.of_Z quantity_kg) as [q|]; [|done]. intros [= <-].
  unfold deficit. cbn. destruct (available - q <? 0)%float eqn:Hlt; [right|left]; [|done].
  split; [done|]. by apply abs_of_negative.
Qed.

(** ** Order placement *)

(** After [to_str_id] no field is a datetime any more, so asking one for its
    [isoformat()] raises. *)
Lemma isoformat_after_to_str_id (doc : option document) (d : gmap string value)
    (k : string) :
  to_str_id doc = Some d -> isoformat (get d k) = Raise AttributeError.
Proof.
  destruct doc as [doc|]; [|done]. intros [= <-].
  unfold get. rewrite lookup_fmap.
  destruct (_ !! k) as [v|]; [|done]. by destruct v.
Qed.

Ltac refused H :=
  inversion H; subst; split; [eauto|left; repeat split; eauto].

(** [create_order] always raises.  Either it wrote no document at all, or the
    request was [accepted] and the two writes were made; in that case it
    raises while it builds the response, because [to_str_id] has turned
    [created_at] into a string by then. *)
Lemma create_order_inv order now1 now2 now3 db db' r :
  create_order order now1 now2 now3 db = (db', r) ->
  (exists e, r = Raise e) /\
  (unchanged db db' \/
  exists inv total new_available batch_index,
    accepted db order inv total new_available batch_index /\
    db' = Mongo (db_customer db)
            (fst (update_first (ById (_id inv)) (debit new_available now3)
                    (db_inventory db)))
            (db_order db ++
               [Document (next_oid db) (order_doc order total batch_index now1 now2)])
            (next_oid db + 1)%N).
Proof.
  unfold create_order, mbind, try_except, pure, find_one, raise. cbn [coll].
  intros H.
  destruct (ObjectId (OrderIn.customer_id order)) as [o|e] eqn:Ho; [|refused H].
  destruct (find (matches (ById o)) (db_customer db)) as [cust|] eqn:Hcust;
    [|refused H].
  destruct (find _ (db_inventory db)) as [inv|] eqn:Hinv; [|refused H].
  destruct (Py.int (get_default (fields inv) "min_kg" (VInt 1)))
    as [min|e] eqn:Hmin; [|refused H].
  destruct (OrderIn.quantity_kg order <? min) eqn:Hlt; [refused H|].
  destruct (Py.int (get_default (fields inv) "step_kg" (VInt 1)))
    as [step|e] eqn:Hstep; [|refused H].
  unfold Py.mod_int in H.
  destruct (step =? 0) eqn:Hstep0; [refused H|].
  destruct (negb (OrderIn.quantity_kg order mod step =? 0)) eqn:Hmod; [refused H|].
  destruct (Py.float (get_default (fields inv) "price_per_kg" (VInt 0)))
    as [price|e] eqn:Hprice; [|refused H].
  destruct (Py.mul (Py.Float price) _) as [product|e] eqn:Hproduct; [|refused H].
  destruct (Py.float (get_default (fields inv) "available_kg" (VInt 0)))
    as [available|e] eqn:Havail; [|refused H].
  destruct (Py.sub (Py.Float available) _) as [new_available|e] eqn:Hnew;
    [|refused H].
  destruct (Py.int (get_default (fields inv) "batch_threshold_kg" (VInt 15)))
    as [threshold|e] eqn:Hth; [|refused H].
  fold (deficit new_available) in H.
  destruct (if Py.gt_0 (deficit new_available) then _ else _) as [b|e] eqn:Hb;
    [|refused H].
  destruct (Py.int_of_num b) as [bi|e] eqn:Hbi; [|refused H].
  unfold create_document, insert_one, update_one, mbind, ret in H.
  cbn [coll db_order db_customer db_inventory next_oid set_coll] in H.
  destruct (existsb (matches (ById (next_oid db))) (db_order db)) eqn:Hfresh;
    [refused H|].
  cbn [coll db_order db_customer db_inventory next_oid set_coll] in H.
  fold (debit new_available now3) in H.
  destruct (update_first _ _ (db_inventory db)) as [l n] eqn:Hupd.
  cbn [coll db_order db_customer db_inventory next_oid set_coll] in H.
  assert (db' = Mongo (db_customer db) l
                  (db_order db ++
                     [Document (next_oid db)
                        (order_doc order (Py.round product 2) bi now1 now2)])
                  (next_oid db + 1)%N /\ exists e, r = Raise e) as [-> Hr].
  { unfold order_doc.
    destruct (ObjectId (str (next_oid db))); cbn in H;
      [|inversion H; eauto].
    match type of H with context [to_str_id ?x] =>
      destruct (to_str_id x) eqn:Hsaved end; cbn in H; [|inversion H; eauto].
    rewrite (isoformat_after_to_str_id _ _ _ Hsaved) in H. cbn in H.
    inversion H; eauto. }
  split; [done|].
  right. exists inv, (Py.round product 2), new_available, bi. split.
  - constructor.
    + eauto.
    + done.
    + exists min. split; [done|]. by apply Z.ltb_ge.
    + exists step. split; [done|]. split; [by apply Z.eqb_neq|].
      apply negb_false_iff in Hmod. by apply Z.eqb_eq.
    + eauto.
    + eauto.
    + eauto.
    + done.
  - by rewrite Hupd.
Qed.

Lemma create_order_raises order now1 now2 now3 db :
  exists e, snd (create_order order now1 now2 now3 db) = Raise e.
Proof.
  destruct (create_order order now1 now2 now3 db) as [db' r] eqn:Hrun.
  by destruct (create_order_inv _ _ _ _ _ _ _ Hrun).
Qed.

(** A persisted order is an accepted one, and the record is [order_doc]. *)
Lemma placed_inv order now1 now2 now3 db db' r d :
  create_order order now1 now2 now3 db = (db', r) ->
  placed db db' d ->
  exists inv total new_available batch_index,
    accepted db order inv total new_available batch_index /\
    d = Document (next_oid db) (order_doc order total batch_index now1 now2) /\
    db_customer db' = db_customer db /\
    db_inventory db' =
      fst (update_first (ById (_id inv)) (debit new_available now3) (db_inventory db)).
Proof.
  intros [_ [(_ & _ & Ho)|(inv & total & new_available & bi & Hacc & ->)]]%create_order_inv
    Hplaced; unfold placed in Hplaced.
  - rewrite Ho in Hplaced. apply (f_equal length) in Hplaced.
    rewrite length_app in Hplaced. cbn in Hplaced. lia.
  - cbn in Hplaced. apply app_inv_head in Hplaced as [= <-]. eauto 10.
Qed.

(** C1: for every persisted order, [batch_index] is 0 when the post-order
    deficit is 0 and [floor((deficit - 1) / batch_threshold_kg)] when the
    deficit is positive, and the deficit is always one or the other; in
    particular 50 kg ordered against [available_kg = 0] with a threshold of 15
    is stored with [batch_index = 3]. *)
Theorem create_order_batch_index :
  (forall order now1 now2 now3 db db' r d,
     create_order order now1 now2 now3 db = (db', r) ->
     placed db db' d ->
     exists inv available threshold new_available batch_index,
       find (matches (ByField "product" (product_name (OrderIn.product order))))
         (db_inventory db) = Some inv /\
       Py.float (get_default (fields inv) "available_kg" (VInt 0)) = Return available /\
       Py.int (get_default (fields inv) "batch_threshold_kg" (VInt 15)) = Return threshold /\
       Py.sub (Py.Float available) (Py.Int (OrderIn.quantity_kg order))
         = Return new_available /\
       fields d !! "batch_index" = Some (VInt batch_index) /\
       (deficit new_available = Py.Int 0 \/ Py.gt_0 (deficit new_available) = true) /\
       (deficit new_available = Py.Int 0 -> batch_index = 0) /\
       (Py.gt_0 (deficit new_available) = true ->
        floor_of_quotient (deficit new_available) threshold = Return batch_index)) /\
  (forall order now1 now2 now3 db db' r d inv,
     create_order order now1 now2 now3 db = (db', r) ->
     placed db db' d ->
     find (matches (ByField "product" (product_name (OrderIn.product order))))
       (db_inventory db) = Some inv ->
     Py.float (get_default (fields inv) "available_kg" (VInt 0)) = Return 0%float ->
     Py.int (get_default (fields inv) "batch_threshold_kg" (VInt 15)) = Return 15 ->
     OrderIn.quantity_kg order = 50 ->
     fields d !! "batch_index" = Some (VInt 3)).
Proof.
  assert (forall order now1 now2 now3 db db' r d,
     create_order order now1 now2 now3 db = (db', r) ->
     placed db db' d ->
     exists inv available threshold new_available batch_index,
       find (matches (ByField "product" (product_name (OrderIn.product order))))
         (db_inventory db) = Some inv /\
       Py.float (get_default (fields inv) "available_kg" (VInt 0)) = Return available /\
       Py.int (get_default (fields inv) "batch_threshold_kg" (VInt 15)) = Return threshold /\
       Py.sub (Py.Float available) (Py.Int (OrderIn.quantity_kg order))
         = Return new_available /\
       fields d !! "batch_index" = Some (VInt batch_index) /\
       (deficit new_available = Py.Int 0 \/ Py.gt_0 (deficit new_available) = true) /\
       (deficit new_available = Py.Int 0 -> batch_index = 0) /\
       (Py.gt_0 (deficit new_available) = true ->
        floor_of_quotient (deficit new_available) threshold = Return batch_index))
    as General.
  { intros order now1 now2 now3 db db' r d Hrun Hplaced.
    destruct (placed_inv _ _ _ _ _ _ _ _ Hrun Hplaced)
      as (inv & total & new_available & bi & Hacc & -> & _).
    destruct Hacc as [_ Hinv _ _ _ (available & Havail & Hnew)
                        (threshold & b & Hth & Hb & Hbi) _].
    exists inv, available, threshold, new_available, bi.
    repeat split; try done.
    - destruct (deficit_cases _ _ _ Hnew) as [[_ ?]|[_ ?]]; auto.
    - intros Hzero. rewrite Hzero in Hb. cbn in Hb. injection Hb as <-.
      cbn in Hbi. by injection Hbi.
    - intros Hpos. rewrite Hpos in Hb. unfold floor_of_quotient, bind in *.
      destruct (Py.sub (deficit new_available) (Py.Int 1)); [|done].
      by rewrite Hb. }
  split; [exact General|].
  intros order now1 now2 now3 db db' r d inv Hrun Hplaced Hinv Havail Hth Hq.
  destruct (General _ _ _ _ _ _ _ _ Hrun Hplaced)
    as (inv' & available & threshold & new_available & bi
        & Hinv' & Havail' & Hth' & Hnew & Hd & _ & _ & Hpos).
  rewrite Hinv in Hinv'. injection Hinv' as <-.
  rewrite Havail in Havail'. rewrite Hth in Hth'. rewrite Hq in Hnew.
  injection Havail' as <-. injection Hth' as <-. vm_compute in Hnew.
  injection Hnew as <-. rewrite Hd. do 2 f_equal.
  assert (Return bi = Return 3) as [= ->]; [|done].
  rewrite <- Hpos; [|done]. by vm_compute.
Qed.

(** C1 on the seeded shop: Alice orders 50 kg of suxhuk. *)
Lemma create_order_batch_index_witness :
  (exists inv available threshold new_available batch_index,
     find (matches (ByField "product" "suxhuk")) (db_inventory shop) = Some inv /\
     Py.float (get_default (fields inv) "available_kg" (VInt 0)) = Return available /\
     Py.int (get_default (fields inv) "batch_threshold_kg" (VInt 15)) = Return threshold /\
     Py.sub (Py.Float available) (Py.Int 50) = Return new_available /\
     fields (Document 3%N (order_doc (order_of suxhuk 50) (Py.Float 2500) 3 10 11))
       !! "batch_index" = Some (VInt batch_index) /\
     (deficit new_available = Py.Int 0 \/ Py.gt_0 (deficit new_available) = true) /\
     (deficit new_available = Py.Int 0 -> batch_index = 0) /\
     (Py.gt_0 (deficit new_available) = true ->
      floor_of_quotient (deficit new_available) threshold = Return batch_index)) /\
  fields (Document 3%N (order_doc (order_of suxhuk 50) (Py.Float 2500) 3 10 11))
    !! "batch_index" = Some (VInt 3).
Proof.
  split.
  - apply (proj1 create_order_batch_index (order_of suxhuk 50) 10 11 12 shop
             (exec (create_order (order_of suxhuk 50) 10 11 12) shop)
             (snd (create_order (order_of suxhuk 50) 10 11 12 shop))).
    + by vm_compute.
    + by vm_compute.
  - apply (proj2 create_order_batch_index (order_of suxhuk 50) 10 11 12 shop
             (exec (create_order (order_of suxhuk 50) 10 11 12) shop)
             (snd (create_order (order_of suxhuk 50) 10 11 12 shop))
             _ (Document 1%N suxhuk_defaults)).
    + by vm_compute.
    + by vm_compute.
    + by vm_compute.
    + by vm_compute.
    + by vm_compute.
    + by vm_compute.
Defined.

(** C2: the stored [batch_index] can be negative.  The state [stocked] is
    reached through the API: the administrator records half a kilogram of
    suxhuk.  A valid order of 1 kg then leaves a deficit of 0.5, and
    [(0.5 - 1) // 15] is stored as -1. *)
Lemma fractional_stock_negative_batch_index :
  reachable stocked /\
  InventoryItemIn.valid half_kg_in_stock /\ OrderIn.valid (order_of suxhuk 1) /\
  exists d,
    placed stocked (exec (create_order (order_of suxhuk 1) 10 11 12) stocked) d /\
    fields d !! "batch_index" = Some (VInt (-1)).
Proof.
  split.
  { apply (reachable_handle (PostInventory half_kg_in_stock 5)),
      (reachable_handle GetInventory), (reachable_handle (PostCustomers alice 1)),
      reachable_empty. }
  split; [by vm_compute|]. split; [by vm_compute|].
  exists (Document 3%N (order_doc (order_of suxhuk 1) (Py.Float 50) (-1) 10 11)).
  split; by vm_compute.
Qed.



(** C4, as stated, fails: a quantity that is not a multiple of the step is
    answered with the minimum-order error when it is also below the minimum,
    because the minimum is checked first.  Here 1 kg is asked of a product
    sold from 3 kg in steps of 2 kg. *)
Lemma increment_checked_after_minimum :
  InventoryItemIn.valid by_two_from_three /\
  OrderIn.quantity_kg (order_of suxhuk 1) mod InventoryItemIn.step_kg by_two_from_three <> 0 /\
  snd (create_order (order_of suxhuk 1) 10 11 12 custom_shop)
    = Raise (HTTPException 400 [Lit "Minimum order is "; Fmt (VInt 3); Lit " kg"]) /\
  snd (create_order (order_of suxhuk 1) 10 11 12 custom_shop)
    <> Raise (HTTPException 400
                [Lit "Quantity must be in increments of "; Fmt (VInt 2); Lit " kg"]).
Proof.
  split; [by vm_compute|]. split; [by vm_compute|].
  assert (snd (create_order (order_of suxhuk 1) 10 11 12 custom_shop)
    = Raise (HTTPException 400 [Lit "Minimum order is "; Fmt (VInt 3); Lit " kg"]))
    as ->; [by vm_compute|].
  split; [done|]. intros [=].
Qed.

(** C4, amended: when the customer resolves and the product has an inventory
    record, a quantity below [min_kg] is refused with 400 and the required
    minimum, and a quantity that reaches the minimum but is not a multiple of
    [step_kg] is refused with 400 and the required step; either way the
    database is left exactly as it was. *)
Theorem create_order_min_and_step order now1 now2 now3 db o cust inv min :
  ObjectId (OrderIn.customer_id order) = Return o ->
  find (matches (ById o)) (db_customer db) = Some cust ->
  find (matches (ByField "product" (product_name (OrderIn.product order))))
    (db_inventory db) = Some inv ->
  fields inv !! "min_kg" = Some (VInt min) ->
  (OrderIn.quantity_kg order < min ->
   create_order order now1 now2 now3 db
     = (db, Raise (HTTPException 400
                     [Lit "Minimum order is "; Fmt (VInt min); Lit " kg"]))) /\
  (forall step,
     fields inv !! "step_kg" = Some (VInt step) ->
     step <> 0 ->
     min <= OrderIn.quantity_kg order ->
     OrderIn.quantity_kg order mod step <> 0 ->
     create_order order now1 now2 now3 db
       = (db, Raise (HTTPException 400
                       [Lit "Quantity must be in increments of "; Fmt (VInt step);
                        Lit " kg"]))).
Proof.
  intros Ho Hcust Hinv Hmin.
  unfold create_order, mbind, try_except, pure, find_one, raise. cbn [coll].
  rewrite Ho, Hcust, Hinv. unfold get_default, get. rewrite Hmin.
  cbn [from_option id Py.int].
  split.
  - intros Hlt. apply Z.ltb_lt in Hlt. by rewrite Hlt.
  - intros step Hstep Hstep0 Hge Hmod.
    apply Z.ltb_ge in Hge. rewrite Hge, Hstep. cbn [from_option id Py.int].
    unfold Py.mod_int. apply Z.eqb_neq in Hstep0, Hmod. by rewrite Hstep0, Hmod.
Qed.

(** C4 on the customised shop: 1 kg is below the minimum of 3 kg, and 5 kg is
    not a multiple of 2 kg. *)
Lemma create_order_min_and_step_witness :
  create_order (order_of suxhuk 1) 10 11 12 custom_shop
    = (custom_shop,
       Raise (HTTPException 400 [Lit "Minimum order is "; Fmt (VInt 3); Lit " kg"])) /\
  create_order (order_of suxhuk 5) 10 11 12 custom_shop
    = (custom_shop,
       Raise (HTTPException 400
                [Lit "Quantity must be in increments of "; Fmt (VInt 2); Lit " kg"])).
Proof.
  split.
  - apply (create_order_min_and_step (order_of suxhuk 1) 10 11 12 custom_shop 0%N
             (Document 0%N (<["updated_at" := VDatetime 1]>
                            (<["created_at" := VDatetime 1]> (CustomerIn.model_dump alice))))
             (Document 1%N (<["updated_at" := VDatetime 5]>
                            (InventoryItemIn.model_dump by_two_from_three) ∪ suxhuk_defaults))
             3).
    + by vm_compute.
    + by vm_compute.
    + by vm_compute.
    + by vm_compute.
    + by vm_compute.
  - apply (create_order_min_and_step (order_of suxhuk 5) 10 11 12 custom_shop 0%N
             (Document 0%N (<["updated_at" := VDatetime 1]>
                            (<["created_at" := VDatetime 1]> (CustomerIn.model_dump alice))))
             (Document 1%N (<["updated_at" := VDatetime 5]>
                            (InventoryItemIn.model_dump by_two_from_three) ∪ suxhuk_defaults))
             3).
    + by vm_compute.
    + by vm_compute.
    + by vm_compute.
    + by vm_compute.
    + by vm_compute.
    + by vm_compute.
    + by vm_compute.
    + by vm_compute.
Defined.




(** The [$set] of the debit, written as two field updates. *)
Lemma set_fields_debit (new_available : Py.num) (now3 : time) (inv : document) :
  set_fields (debit new_available now3) inv
  = Document (_id inv)
      (<["available_kg" := Py.value_of_num new_available]>
       (<["updated_at" := VDatetime now3]> (fields inv))).
Proof.
  unfold set_fields, debit. f_equal.
  by rewrite <- !insert_union_l, (left_id_L ∅ (∪)).
Qed.

(** C6: a persisted order comes with exactly two writes.  The order record is
    appended with status "received" and with its total, batch index and both
    timestamps set; the inventory record of the ordered product is rewritten
    in place, [available_kg] becoming the previous value minus the quantity
    (and [updated_at] the time of the write); every other inventory record
    and the customers are as before. *)
Theorem create_order_writes order now1 now2 now3 db db' r d :
  unique_ids (db_inventory db) ->
  create_order order now1 now2 now3 db = (db', r) ->
  placed db db' d ->
  exists inv i available quantity_kg total batch_index,
    find (matches (ByField "product" (product_name (OrderIn.product order))))
      (db_inventory db) = Some inv /\
    db_inventory db !! i = Some inv /\
    Py.float (get_default (fields inv) "available_kg" (VInt 0)) = Return available /\
    PyFloat.of_Z (OrderIn.quantity_kg order) = Some quantity_kg /\
    d = Document (next_oid db) (order_doc order total batch_index now1 now2) /\
    fields d !! "status" = Some (VStr "received") /\
    fields d !! "total_price_nzd" = Some (Py.value_of_num total) /\
    fields d !! "batch_index" = Some (VInt batch_index) /\
    fields d !! "created_at" = Some (VDatetime now1) /\
    fields d !! "updated_at" = Some (VDatetime now2) /\
    db_customer db' = db_customer db /\
    db_inventory db'
      = <[i := Document (_id inv)
                 (<["available_kg" := VFloat (available - quantity_kg)]>
                  (<["updated_at" := VDatetime now3]> (fields inv)))]>
          (db_inventory db).
Proof.
  intros Hunique Hrun Hplaced.
  destruct (placed_inv _ _ _ _ _ _ _ _ Hrun Hplaced)
    as (inv & total & new_available & bi & Hacc & -> & Hcust & Hinventory).
  destruct Hacc as [_ Hinv _ _ _ (available & Havail & Hnew) _ _].
  destruct (find_lookup _ _ _ Hinv) as (i & Hi & _).
  unfold Py.sub, Py.binop, bind, Py.to_float in Hnew.
  destruct (PyFloat.of_Z (OrderIn.quantity_kg order)) as [q|] eqn:Hq; [|done].
  injection Hnew as <-.
  exists inv, i, available, q, total, bi.
  rewrite Hinventory, (update_first_by_id _ _ i inv Hunique Hi), set_fields_debit.
  repeat split; try done; by vm_compute.
Qed.

(** C6 on the seeded shop: Alice orders 50 kg of suxhuk. *)
Lemma create_order_writes_witness :
  exists inv i available quantity_kg total batch_index,
    find (matches (ByField "product" "suxhuk")) (db_inventory shop) = Some inv /\
    db_inventory shop !! i = Some inv /\
    Py.float (get_default (fields inv) "available_kg" (VInt 0)) = Return available /\
    PyFloat.of_Z 50 = Some quantity_kg /\
    Document 3%N (order_doc (order_of suxhuk 50) (Py.Float 2500) 3 10 11)
      = Document (next_oid shop) (order_doc (order_of suxhuk 50) total batch_index 10 11) /\
    fields (Document 3%N (order_doc (order_of suxhuk 50) (Py.Float 2500) 3 10 11))
      !! "status" = Some (VStr "received") /\
    fields (Document 3%N (order_doc (order_of suxhuk 50) (Py.Float 2500) 3 10 11))
      !! "total_price_nzd" = Some (Py.value_of_num total) /\
    fields (Document 3%N (order_doc (order_of suxhuk 50) (Py.Float 2500) 3 10 11))
      !! "batch_index" = Some (VInt batch_index) /\
    fields (Document 3%N (order_doc (order_of suxhuk 50) (Py.Float 2500) 3 10 11))
      !! "created_at" = Some (VDatetime 10) /\
    fields (Document 3%N (order_doc (order_of suxhuk 50) (Py.Float 2500) 3 10 11))
      !! "updated_at" = Some (VDatetime 11) /\
    db_customer (exec (create_order (order_of suxhuk 50) 10 11 12) shop)
      = db_customer shop /\
    db_inventory (exec (create_order (order_of suxhuk 50) 10 11 12) shop)
      = <[i := Document (_id inv)
                 (<["available_kg" := VFloat (available - quantity_kg)]>
                  (<["updated_at" := VDatetime 12]> (fields inv)))]>
          (db_inventory shop).
Proof.
  apply (create_order_writes (order_of suxhuk 50) 10 11 12 shop
           (exec (create_order (order_of suxhuk 50) 10 11 12) shop)
           (snd (create_order (order_of suxhuk 50) 10 11 12 shop))).
  - unfold unique_ids. refine (bool_decide_unpack _ _). by vm_compute.
  - by vm_compute.
  - by vm_compute.
Defined.


(** ** Storage lemmas *)

Lemma find_app_None (q : query) (l l' : list document) :
  find (matches q) l = None -> find (matches q) (l ++ l') = find (matches q) l'.
Proof.
  induction l as [|a l IH]; cbn; [done|]. by destruct (matches q a).
Qed.

Lemma existsb_find (q : query) (l : list document) :
  existsb (matches q) l = false <-> find (matches q) l = None.
Proof.
  induction l as [|a l IH]; cbn; [done|]. by destruct (matches q a).
Qed.

Lemma filter_find_None (q : query) (l : list document) :
  find (matches q) l = None -> List.filter (matches q) l = [].
Proof.
  induction l as [|a l IH]; cbn; [done|]. by destruct (matches q a).
Qed.

Lemma wf_fresh (db : mongo) (c : collection) :
  wf db -> find (matches (ById (next_oid db))) (coll c db) = None.
Proof.
  intros Hwf. destruct (Hwf c) as [_ Hlt].
  induction Hlt as [|d l Hd _ IH]; cbn; [done|].
  destruct (N.eqb_spec (_id d) (next_oid db)); [lia|done].
Qed.

Lemma union_same_keys (m1 m2 : gmap string value) :
  dom m2 ⊆ dom m1 -> m1 ∪ m2 = m1.
Proof.
  intros Hdom. apply map_eq. intros k. rewrite lookup_union.
  destruct (m1 !! k) as [v1|] eqn:H1, (m2 !! k) as [v2|] eqn:H2; try done.
  assert (k ∈ dom m1) as [? ?]%elem_of_dom; [|congruence].
  apply Hdom, elem_of_dom. eauto.
Qed.

(** ** Customers *)

Lemma customer_payload_dom data created_at now :
  dom (customer_payload data created_at now)
  = {["updated_at"; "created_at"; "name"; "email"; "phone"; "address";
      "payment_methods"]}.
Proof.
  unfold customer_payload, CustomerIn.model_dump. rewrite !dom_insert_L, dom_empty_L.
  set_solver.
Qed.

Lemma customer_payload_email data created_at now :
  customer_payload data created_at now !! "email" = Some (VStr (CustomerIn.email data)).
Proof. done. Qed.

(** With no customer under the email, [upsert_customer] appends one. *)
Lemma upsert_customer_insert data now db :
  wf db ->
  find (matches (ByField "email" (CustomerIn.email data))) (db_customer db) = None ->
  exec (upsert_customer data now) db
  = Mongo (db_customer db ++
             [Document (next_oid db) (customer_payload data (VDatetime now) now)])
      (db_inventory db) (db_order db) (next_oid db + 1)%N.
Proof.
  intros Hwf Hnone.
  pose proof (proj2 (existsb_find _ _) (wf_fresh db Customer Hwf)) as Hfresh.
  unfold exec, upsert_customer, create_document, insert_one, mbind, find_one, pure, ret.
  cbn [coll] in *. rewrite Hnone.
  cbn [coll db_order db_customer db_inventory next_oid set_coll].
  rewrite Hfresh.
  cbn [coll db_order db_customer db_inventory next_oid set_coll].
  fold (customer_payload data (VDatetime now) now).
  destruct (ObjectId (str (next_oid db))); cbn; [|done].
  by destruct (to_str_id _).
Qed.

(** With a customer under the email, and unique ids, [upsert_customer]
    rewrites that customer in place, keeping the stored [created_at]. *)
Lemma upsert_customer_update data now db e i :
  unique_ids (db_customer db) ->
  find (matches (ByField "email" (CustomerIn.email data))) (db_customer db) = Some e ->
  db_customer db !! i = Some e ->
  exec (upsert_customer data now) db
  = Mongo (<[i := set_fields (customer_payload data (get (fields e) "created_at") now) e]>
             (db_customer db))
      (db_inventory db) (db_order db) (next_oid db).
Proof.
  intros Hunique Hfind Hi.
  unfold exec, upsert_customer, mbind, find_one, update_one, pure, ret.
  cbn [coll]. rewrite Hfind.
  fold (customer_payload data (get (fields e) "created_at") now).
  cbn [coll]. rewrite (update_first_by_id _ _ i e Hunique Hi).
  cbn [coll db_order db_customer db_inventory next_oid set_coll].
  by destruct (to_str_id _).
Qed.

(** C7: two upserts under one email, the first of which inserts, leave one
    record for that email: the record of the first upsert, rewritten in place
    with every field of the second, except [created_at], which is the one
    the first upsert stored, and with [updated_at] set by the second. *)
Theorem upsert_customer_twice data1 data2 now1 now2 db :
  wf db ->
  CustomerIn.email data2 = CustomerIn.email data1 ->
  find (matches (ByField "email" (CustomerIn.email data1))) (db_customer db) = None ->
  let db1 := exec (upsert_customer data1 now1) db in
  let db2 := exec (upsert_customer data2 now2) db1 in
  exists first latest,
    find (matches (ByField "email" (CustomerIn.email data1))) (db_customer db1)
      = Some first /\
    find (matches (ByField "email" (CustomerIn.email data1))) (db_customer db2)
      = Some latest /\
    count (ByField "email" (CustomerIn.email data1)) (db_customer db2) = 1%nat /\
    db_customer db2 = db_customer db ++ [latest] /\
    _id latest = _id first /\
    fields latest !! "name" = Some (VStr (CustomerIn.name data2)) /\
    (forall k, k <> "created_at" -> k <> "updated_at" ->
               fields latest !! k = CustomerIn.model_dump data2 !! k) /\
    (exists t, fields first !! "created_at" = Some (VDatetime t)) /\
    fields latest !! "created_at" = fields first !! "created_at" /\
    fields latest !! "updated_at" = Some (VDatetime now2).
Proof.
  intros Hwf Hemail Hnone db1 db2.
  set (first := Document (next_oid db) (customer_payload data1 (VDatetime now1) now1)).
  set (latest := Document (next_oid db) (customer_payload data2 (VDatetime now1) now2)).
  assert (db1 = Mongo (db_customer db ++ [first]) (db_inventory db) (db_order db)
                  (next_oid db + 1)%N) as Hdb1
    by by apply upsert_customer_insert.
  assert (matches (ByField "email" (CustomerIn.email data1)) first = true) as Hfirst.
  { cbn. rewrite customer_payload_email. apply String.eqb_refl. }
  assert (matches (ByField "email" (CustomerIn.email data1)) latest = true) as Hlatest.
  { cbn. rewrite customer_payload_email, Hemail. apply String.eqb_refl. }
  assert (find (matches (ByField "email" (CustomerIn.email data1))) (db_customer db1)
          = Some first) as Hfind1.
  { rewrite Hdb1. cbn [db_customer]. rewrite find_app_None by done. cbn.
    cbn in Hfirst. by rewrite Hfirst. }
  assert (unique_ids (db_customer db1)) as Hunique.
  { rewrite Hdb1. cbn [db_customer]. unfold unique_ids.
    destruct (Hwf Customer) as [Hnd Hlt]. cbn [coll] in Hnd, Hlt.
    rewrite fmap_app. apply NoDup_app. split; [done|]. split; [|apply NoDup_singleton].
    intros o [d [-> Hd]]%list_elem_of_fmap Hn%list_elem_of_singleton.
    rewrite Forall_forall in Hlt. specialize (Hlt d Hd). cbn in Hlt, Hn. lia. }
  assert (db2 = Mongo (db_customer db ++ [latest]) (db_inventory db) (db_order db)
                  (next_oid db + 1)%N) as Hdb2.
  { unfold db2.
    rewrite (upsert_customer_update data2 now2 db1 first (length (db_customer db)));
      [|done|by rewrite Hemail| by rewrite Hdb1; apply list_lookup_middle].
    rewrite Hdb1. cbn [db_customer db_inventory db_order next_oid]. f_equal.
    rewrite insert_app_r_alt by done. rewrite Nat.sub_diag. cbn [insert list_insert].
    unfold set_fields, latest, first. cbn [_id fields].
    rewrite union_same_keys by by rewrite !customer_payload_dom.
    reflexivity. }
  exists first, latest. rewrite Hdb2. cbn [db_customer].
  split; [done|]. split.
  { rewrite find_app_None by done. cbn. cbn in Hlatest. by rewrite Hlatest. }
  split.
  { unfold count. rewrite List.filter_app, filter_find_None by done. cbn.
    cbn in Hlatest. by rewrite Hlatest. }
  repeat split; try done.
  - intros k Hc Hu. cbn. unfold customer_payload. by rewrite !lookup_insert_ne.
  - by exists now1.
Qed.

(** C7 from the empty database: Alice registers, then again as Alicia. *)
Lemma upsert_customer_twice_witness :
  exists first latest,
    find (matches (ByField "email" "alice@example.nz"))
      (db_customer (exec (upsert_customer alice 1) empty_db)) = Some first /\
    find (matches (ByField "email" "alice@example.nz"))
      (db_customer (exec (upsert_customer alicia 2)
                      (exec (upsert_customer alice 1) empty_db))) = Some latest /\
    count (ByField "email" "alice@example.nz")
      (db_customer (exec (upsert_customer alicia 2)
                      (exec (upsert_customer alice 1) empty_db))) = 1%nat /\
    db_customer (exec (upsert_customer alicia 2)
                   (exec (upsert_customer alice 1) empty_db))
      = db_customer empty_db ++ [latest] /\
    _id latest = _id first /\
    fields latest !! "name" = Some (VStr "Alicia") /\
    (forall k, k <> "created_at" -> k <> "updated_at" ->
               fields latest !! k = CustomerIn.model_dump alicia !! k) /\
    (exists t, fields first !! "created_at" = Some (VDatetime t)) /\
    fields latest !! "created_at" = fields first !! "created_at" /\
    fields latest !! "updated_at" = Some (VDatetime 2).
Proof.
  apply (upsert_customer_twice alice alicia 1 2 empty_db).
  - intros c. split.
    + unfold unique_ids. refine (bool_decide_unpack _ _). by destruct c; vm_compute.
    + refine (bool_decide_unpack _ _). by destruct c; vm_compute.
  - reflexivity.
  - reflexivity.
Defined.

(** ** Inventory *)

Lemma has_product_app (p : string) (l l' : list document) :
  has_product p (l ++ l') = has_product p l || has_product p l'.
Proof. unfold has_product. by rewrite fmap_app, existsb_app. Qed.

Lemma missing_defaults_seeded (l : list document) (n : oid) :
  has_product "suxhuk" (l ++ number n (missing_defaults l)) = true /\
  has_product "mish_te_teren" (l ++ number n (missing_defaults l)) = true.
Proof.
  rewrite !has_product_app. unfold missing_defaults.
  destruct (has_product "suxhuk" l), (has_product "mish_te_teren" l); done.
Qed.

(** A product the test finds is shown by the listing. *)
Lemma has_product_listed (p : string) (docs : list document) :
  has_product p docs = true ->
  exists e, e ∈ entry <$> docs /\ e !! "product" = Some (VStr p).
Proof.
  unfold has_product. rewrite existsb_exists.
  intros (v & Hin%list_elem_of_In & Hv).
  apply list_elem_of_fmap in Hin as [d [-> Hd]].
  exists (entry d). split; [by apply list_elem_of_fmap_2|].
  unfold entry. rewrite lookup_fmap, lookup_insert_ne by done.
  unfold get in Hv. destruct (fields d !! "product") as [[]|]; try done.
  cbn in *. by apply String.eqb_eq in Hv as ->.
Qed.

Lemma traverse_entries (l : list document) (db : mongo) :
  traverse (fun d => response (to_str_id (Some d))) l db = (db, Return (entry <$> l)).
Proof.
  induction l as [|d l IH]; [done|].
  cbn [traverse to_str_id response] in *. unfold mbind at 1. unfold ret at 1.
  unfold mbind at 1. by rewrite IH.
Qed.

(** Inserting default rows never fails on a well-formed database; the rows
    are appended with consecutive ids. *)
Lemma create_documents (items : list (gmap string value)) (db : mongo) :
  Forall (fun d => (_id d < next_oid db)%N) (db_inventory db) ->
  for_each items (fun item => let* _ := create_document Inventory item in ret tt) db
  = (Mongo (db_customer db) (db_inventory db ++ number (next_oid db) items)
       (db_order db) (next_oid db + N.of_nat (length items))%N,
     Return tt).
Proof.
  set (body := fun item => let* _ := create_document Inventory item in ret tt).
  revert db. induction items as [|item items IH]; intros db Hlt.
  - cbn. unfold ret. destruct db. cbn. by rewrite app_nil_r, N.add_0_r.
  - cbn [for_each number length]. unfold mbind at 1. unfold body at 1.
    unfold create_document, insert_one, mbind, ret.
    cbn [coll db_order db_customer db_inventory next_oid set_coll].
    assert (existsb (matches (ById (next_oid db))) (db_inventory db) = false) as ->.
    { apply existsb_find. induction Hlt as [|d l Hd _ IHl]; cbn; [done|].
      destruct (N.eqb_spec (_id d) (next_oid db)); [lia|done]. }
    cbn [coll db_order db_customer db_inventory next_oid set_coll].
    rewrite IH.
    + cbn [db_order db_customer db_inventory next_oid].
      rewrite <- app_assoc. cbn [app]. do 2 f_equal. lia.
    + cbn [db_order db_customer db_inventory next_oid].
      apply Forall_app. split.
      * eapply Forall_impl; [exact Hlt|]. intros d Hd. cbn in Hd. lia.
      * repeat constructor. cbn. lia.
Qed.

(** What one listing does to a well-formed database. *)
Lemma list_inventory_run (db : mongo) :
  Forall (fun d => (_id d < next_oid db)%N) (db_inventory db) ->
  list_inventory db
  = (let docs := db_inventory db ++ number (next_oid db) (missing_defaults (db_inventory db)) in
     (Mongo (db_customer db) docs (db_order db)
        (next_oid db + N.of_nat (length (missing_defaults (db_inventory db))))%N,
      Return (entry <$> docs))).
Proof.
  intros Hlt.
  unfold list_inventory, get_documents. unfold mbind at 1. cbn [coll].
  fold (has_product "suxhuk" (db_inventory db)).
  fold (has_product "mish_te_teren" (db_inventory db)).
  rewrite !if_negb. fold (missing_defaults (db_inventory db)).
  unfold mbind at 1. rewrite create_documents by done.
  unfold mbind at 1. cbn [coll db_inventory]. by rewrite traverse_entries.
Qed.

Lemma number_lt (n : oid) (items : list (gmap string value)) :
  Forall (fun d => (n <= _id d < n + N.of_nat (length items))%N) (number n items).
Proof.
  revert n. induction items as [|item items IH]; intros n; cbn [number length].
  - constructor.
  - constructor; [cbn; lia|].
    eapply Forall_impl; [apply IH|]. intros d Hd. cbn in Hd. lia.
Qed.

(** C8: on a well-formed database the first listing appends a default row for
    each fixed product that has none (and only those), leaves every existing
    inventory record, the customers and the orders as they were, and shows
    both products; a second listing right after it writes nothing and shows
    the very same entries. *)
Theorem list_inventory_idempotent db :
  wf db ->
  let db1 := exec list_inventory db in
  exists listing,
    db_inventory db1
      = db_inventory db ++ number (next_oid db) (missing_defaults (db_inventory db)) /\
    db_customer db1 = db_customer db /\
    db_order db1 = db_order db /\
    snd (list_inventory db) = Return listing /\
    listing = entry <$> db_inventory db1 /\
    (exists e, e ∈ listing /\ e !! "product" = Some (VStr "suxhuk")) /\
    (exists e, e ∈ listing /\ e !! "product" = Some (VStr "mish_te_teren")) /\
    list_inventory db1 = (db1, Return listing).
Proof.
  intros Hwf db1. destruct (Hwf Inventory) as [_ Hlt]. cbn [coll] in Hlt.
  pose proof (list_inventory_run db Hlt) as Hrun. cbv zeta in Hrun.
  set (items := missing_defaults (db_inventory db)) in *.
  set (docs := db_inventory db ++ number (next_oid db) items) in *.
  assert (db1 = Mongo (db_customer db) docs (db_order db)
                  (next_oid db + N.of_nat (length items))%N) as Hdb1
    by (unfold db1, exec; by rewrite Hrun).
  destruct (missing_defaults_seeded (db_inventory db) (next_oid db)) as [Hs Hm].
  fold items in Hs, Hm. fold docs in Hs, Hm.
  exists (entry <$> docs). rewrite Hrun, Hdb1. cbn [snd db_inventory db_customer db_order].
  repeat split; try done.
  - by apply has_product_listed.
  - by apply has_product_listed.
  - rewrite list_inventory_run; cbn [db_inventory db_customer db_order next_oid].
    + unfold missing_defaults. rewrite Hs, Hm. cbn [app length number N.of_nat].
      by rewrite app_nil_r, N.add_0_r.
    + apply Forall_app. split.
      * eapply Forall_impl; [exact Hlt|]. intros d Hd. cbn in Hd. lia.
      * eapply Forall_impl; [apply number_lt|]. intros d Hd. cbn in Hd. lia.
Qed.

(** C8 when only Alice is in the database: both rows are seeded once. *)
Lemma list_inventory_idempotent_witness :
  exists listing,
    db_inventory (exec list_inventory registered)
      = db_inventory registered
        ++ number (next_oid registered) (missing_defaults (db_inventory registered)) /\
    db_customer (exec list_inventory registered) = db_customer registered /\
    db_order (exec list_inventory registered) = db_order registered /\
    snd (list_inventory registered) = Return listing /\
    listing = entry <$> db_inventory (exec list_inventory registered) /\
    (exists e, e ∈ listing /\ e !! "product" = Some (VStr "suxhuk")) /\
    (exists e, e ∈ listing /\ e !! "product" = Some (VStr "mish_te_teren")) /\
    list_inventory (exec list_inventory registered)
      = (exec list_inventory registered, Return listing).
Proof.
  apply (list_inventory_idempotent registered).
  intros c. split.
  - unfold unique_ids. refine (bool_decide_unpack _ _). by destruct c; vm_compute.
  - refine (bool_decide_unpack _ _). by destruct c; vm_compute.
Defined.

(** ** Order status *)

Lemma find_insert (q : query) (l : list document) i d d' :
  l !! i = Some d ->
  (forall j dj, (j < i)%nat -> l !! j = Some dj -> matches q dj = false) ->
  matches q d' = true ->
  find (matches q) (<[i := d']> l) = Some d'.
Proof.
  revert i. induction l as [|a l IH]; intros [|i]; cbn; try done.
  - intros _ _ ->. done.
  - intros Hi Hfirst Hd'. rewrite (Hfirst 0%nat a); [|lia|done].
    apply IH; [done| |done]. intros j dj Hj Hdj. apply (Hfirst (S j)); [lia|done].
Qed.

(** A listing entry holds no datetime. *)
Lemma entry_no_datetime (d : document) (k : string) (t : time) :
  get (entry d) k <> VDatetime t.
Proof.
  unfold get, entry. rewrite lookup_fmap.
  destruct (_ !! k) as [v|]; [|done]. by destruct v.
Qed.



(** ** Seeding *)

Lemma fresh_id (n : oid) (l : list document) :
  Forall (fun d => (_id d < n)%N) l -> existsb (matches (ById n)) l = false.
Proof.
  intros Hlt. apply existsb_find. induction Hlt as [|d l Hd _ IHl]; cbn; [done|].
  destruct (N.eqb_spec (_id d) n); [lia|done].
Qed.

Lemma matches_product_inj (p q : string) (d : document) :
  matches (ByField "product" p) d = true ->
  matches (ByField "product" q) d = true -> p = q.
Proof.
  cbn. destruct (fields d !! "product") as [[]|]; try done.
  by intros ->%String.eqb_eq ->%String.eqb_eq.
Qed.

(** The record of the item's product is overwritten in place. *)
Lemma seed_list_overwrites item n l i d :
  unique_ids l ->
  l !! i = Some d ->
  matches (ByField "product" (item_product item)) d = true ->
  (forall j dj, l !! j = Some dj ->
                matches (ByField "product" (item_product item)) dj = true -> j = i) ->
  seed_list item n l = <[i := set_fields item d]> l.
Proof.
  intros Hunique Hi Hd Honly. unfold seed_list.
  destruct (find _ l) as [e|] eqn:Hfind.
  - destruct (find_lookup _ _ _ Hfind) as (j & Hj & He & _).
    assert (j = i) as -> by eauto. assert (e = d) as -> by congruence.
    by rewrite (update_first_by_id _ _ i d Hunique Hi).
  - apply find_None_Forall in Hfind. rewrite Forall_forall in Hfind.
    rewrite Hfind in Hd; [done|]. by eapply list_elem_of_lookup_2.
Qed.

(** Records of other products stay where they are, as they are. *)
Lemma seed_list_other item n l i d :
  unique_ids l ->
  l !! i = Some d ->
  matches (ByField "product" (item_product item)) d = false ->
  seed_list item n l !! i = Some d.
Proof.
  intros Hunique Hi Hd. unfold seed_list.
  destruct (find _ l) as [e|] eqn:Hfind.
  - destruct (find_lookup _ _ _ Hfind) as (j & Hj & He & _).
    rewrite (update_first_by_id _ _ j e Hunique Hj). cbn [fst].
    rewrite list_lookup_insert_ne; [done|]. intros ->. congruence.
  - by rewrite lookup_app_l by by eapply lookup_lt_Some.
Qed.

Lemma seed_list_ids item n l :
  unique_ids l -> Forall (fun d => (_id d < n)%N) l ->
  unique_ids (seed_list item n l) /\
  Forall (fun d => (_id d < n + 1)%N) (seed_list item n l).
Proof.
  intros Hunique Hlt. unfold seed_list.
  destruct (find _ l) as [e|] eqn:Hfind.
  - destruct (find_lookup _ _ _ Hfind) as (j & Hj & He & _).
    rewrite (update_first_by_id _ _ j e Hunique Hj). cbn [fst].
    assert (_id <$> <[j := set_fields item e]> l = _id <$> l) as Hids.
    { rewrite list_fmap_insert. cbn. apply list_insert_id.
      by rewrite list_lookup_fmap, Hj. }
    split.
    + unfold unique_ids. by rewrite Hids.
    + apply Forall_fmap with (f := _id) (P := fun o => (o < n + 1)%N).
      rewrite Hids. apply Forall_fmap. eapply Forall_impl; [exact Hlt|].
      intros d Hd. cbn in *. lia.
  - split.
    + unfold unique_ids. rewrite fmap_app. apply NoDup_app.
      split; [done|]. split; [|apply NoDup_singleton].
      intros o [d [-> Hd]]%list_elem_of_fmap Hn%list_elem_of_singleton.
      rewrite Forall_forall in Hlt. specialize (Hlt d Hd). cbn in Hlt, Hn. lia.
    + apply Forall_app. split.
      * eapply Forall_impl; [exact Hlt|]. intros d Hd. cbn in Hd. lia.
      * repeat constructor. cbn. lia.
Qed.

(** Matching records of another product are the same before and after. *)
Lemma seed_list_matches item n l (q : string) j dj :
  unique_ids l ->
  q <> item_product item ->
  fields (Document n item) !! "product" = Some (VStr (item_product item)) ->
  seed_list item n l !! j = Some dj ->
  matches (ByField "product" q) dj = true ->
  l !! j = Some dj.
Proof.
  intros Hunique Hq Hitem Hj Hdj. unfold seed_list in Hj.
  destruct (find _ l) as [e|] eqn:Hfind.
  - destruct (find_lookup _ _ _ Hfind) as (k & Hk & He & _).
    rewrite (update_first_by_id _ _ k e Hunique Hk) in Hj. cbn [fst] in Hj.
    destruct (decide (k = j)) as [->|Hne].
    + rewrite list_lookup_insert_eq in Hj by by eapply lookup_lt_Some.
      injection Hj as <-. exfalso. apply Hq.
      revert Hdj. cbn. cbn in Hitem. rewrite lookup_union, Hitem. cbn.
      destruct (fields e !! "product"); cbn; by intros ->%String.eqb_eq.
    + by rewrite list_lookup_insert_ne in Hj.
  - apply lookup_app_Some in Hj as [Hj|[_ Hj]]; [done|].
    apply list_lookup_singleton_Some in Hj as [_ <-].
    exfalso. apply Hq. revert Hdj. cbn. cbn in Hitem. rewrite Hitem.
    by intros ->%String.eqb_eq.
Qed.

Lemma seed_one_run (item : gmap string value) (db : mongo) :
  unique_ids (db_inventory db) ->
  Forall (fun d => (_id d < next_oid db)%N) (db_inventory db) ->
  exists n,
    seed_one item db
    = (Mongo (db_customer db) (seed_list item (next_oid db) (db_inventory db))
         (db_order db) n, Return tt) /\
    unique_ids (seed_list item (next_oid db) (db_inventory db)) /\
    Forall (fun d => (_id d < n)%N) (seed_list item (next_oid db) (db_inventory db)).
Proof.
  intros Hunique Hlt.
  destruct (seed_list_ids item (next_oid db) _ Hunique Hlt) as [Hunique' Hlt'].
  unfold seed_one, find_one, update_one, create_document, insert_one, mbind, ret.
  unfold seed_list in *. cbn [coll].
  destruct (find _ (db_inventory db)) as [e|] eqn:Hfind.
  - destruct (find_lookup _ _ _ Hfind) as (j & Hj & He & _).
    cbn [coll]. rewrite (update_first_by_id _ _ j e Hunique Hj) in *. cbn [fst] in *.
    exists (next_oid db). split; [done|]. split; [done|].
    apply Forall_fmap with (f := _id) (P := fun o => (o < next_oid db)%N).
    rewrite list_fmap_insert. cbn. rewrite list_insert_id
      by by rewrite list_lookup_fmap, Hj.
    by apply Forall_fmap.
  - cbn [coll db_order db_customer db_inventory next_oid set_coll].
    rewrite fresh_id by done. cbn.
    exists (next_oid db + 1)%N. done.
Qed.

Lemma seed_defaults_run (db : mongo) :
  unique_ids (db_inventory db) ->
  Forall (fun d => (_id d < next_oid db)%N) (db_inventory db) ->
  exists n1 n2,
    unique_ids (seed_list suxhuk_defaults (next_oid db) (db_inventory db)) /\
    seed_defaults db
    = (Mongo (db_customer db)
         (seed_list mish_te_teren_defaults n1
            (seed_list suxhuk_defaults (next_oid db) (db_inventory db)))
         (db_order db) n2,
       Return (<["status" := VStr "ok"]> ∅)).
Proof.
  intros Hunique Hlt.
  destruct (seed_one_run suxhuk_defaults db Hunique Hlt) as (n1 & Hrun1 & Hunique1 & Hlt1).
  set (db1 := Mongo (db_customer db)
                (seed_list suxhuk_defaults (next_oid db) (db_inventory db))
                (db_order db) n1) in *.
  destruct (seed_one_run mish_te_teren_defaults db1 Hunique1 Hlt1)
    as (n2 & Hrun2 & _ & _).
  exists n1, n2. split; [done|].
  unfold seed_defaults. cbn [for_each]. unfold mbind at 1. unfold mbind at 1.
  rewrite Hrun1. unfold mbind at 1. by rewrite Hrun2.
Qed.

Lemma product_of_matches (p : string) (d : document) :
  matches (ByField "product" p) d = true <-> product_of d = Some p.
Proof.
  unfold product_of. cbn. destruct (fields d !! "product") as [[]|]; try done.
  rewrite String.eqb_eq. split; congruence.
Qed.

Lemma one_record_per_product_NoDup (l : list document) :
  NoDup (product_of <$> l) -> one_record_per_product l.
Proof.
  intros Hnd i j di dj p Hi Hj Hdi%product_of_matches Hdj%product_of_matches.
  eapply NoDup_lookup; [exact Hnd| |].
  - by rewrite list_lookup_fmap, Hi.
  - rewrite list_lookup_fmap, Hj. cbn. congruence.
Qed.

(** C10: on a well-formed database with one record per product, [seed_defaults]
    overwrites every inventory record of a fixed product in place: each field
    of the product's default row replaces the stored one ([available_kg]
    becomes 0, the price and the three rules their defaults), the other
    fields and the id stay.  [list_inventory], in contrast, leaves every
    existing record where it is and as it is. *)
Theorem seed_defaults_overwrites db :
  wf db ->
  one_record_per_product (db_inventory db) ->
  (forall i d p,
     db_inventory db !! i = Some d ->
     matches (ByField "product" (product_name p)) d = true ->
     exists d',
       db_inventory (exec seed_defaults db) !! i = Some d' /\
       _id d' = _id d /\
       fields d' !! "available_kg" = Some (VInt 0) /\
       (forall k, fields d' !! k
                  = match defaults_of p !! k with
                    | Some v => Some v
                    | None => fields d !! k
                    end)) /\
  (forall i d,
     db_inventory db !! i = Some d ->
     db_inventory (exec list_inventory db) !! i = Some d).
Proof.
  intros Hwf Hone. destruct (Hwf Inventory) as [Hunique Hlt]. cbn [coll] in *.
  split.
  - intros i d p Hi Hd.
    destruct (seed_defaults_run db Hunique Hlt) as (n1 & n2 & Hunique1 & Hrun).
    unfold exec. rewrite Hrun. cbn [fst db_inventory].
    exists (set_fields (defaults_of p) d).
    assert (forall k, fields (set_fields (defaults_of p) d) !! k
                      = match defaults_of p !! k with
                        | Some v => Some v
                        | None => fields d !! k
                        end) as Hfields.
    { intros k. cbn. rewrite lookup_union.
      by destruct (defaults_of p !! k), (fields d !! k). }
    split; [|split; [done|split; [|done]]].
    2:{ rewrite Hfields. by destruct p. }
    destruct p; cbn [product_name defaults_of] in *.
    + (* suxhuk: overwritten by the first turn, passed over by the second *)
      rewrite (seed_list_overwrites suxhuk_defaults _ _ i d Hunique Hi Hd).
      2:{ intros j dj Hj Hdj. by eapply (Hone j i dj d). }
      apply seed_list_other.
      * unfold unique_ids. rewrite list_fmap_insert. cbn.
        by rewrite list_insert_id by by rewrite list_lookup_fmap, Hi.
      * by apply list_lookup_insert_eq, lookup_lt_Some with d.
      * cbn. rewrite lookup_union. cbn.
        by destruct (fields d !! "product").
    + (* mish_te_teren: passed over by the first turn, overwritten by the second *)
      assert (seed_list suxhuk_defaults (next_oid db) (db_inventory db) !! i = Some d)
        as Hi1.
      { apply seed_list_other; [done..|].
        destruct (matches (ByField "product" (item_product suxhuk_defaults)) d) eqn:Hs;
          [|done].
        by pose proof (matches_product_inj _ _ _ Hd Hs). }
      rewrite (seed_list_overwrites mish_te_teren_defaults _ _ i d Hunique1 Hi1 Hd).
      * by apply list_lookup_insert_eq, lookup_lt_Some with d.
      * intros j dj Hj Hdj. eapply (Hone j i dj d); [|done..].
        by apply (seed_list_matches suxhuk_defaults (next_oid db) _
                    "mish_te_teren" j dj Hunique).
  - intros i d Hi. unfold exec. rewrite list_inventory_run by done. cbn [fst db_inventory].
    by rewrite lookup_app_l by by eapply lookup_lt_Some.
Qed.

(** C10 after an order and a change of price: both records are reset. *)
Lemma seed_defaults_overwrites_witness :
  (forall i d p,
     db_inventory priced_shop !! i = Some d ->
     matches (ByField "product" (product_name p)) d = true ->
     exists d',
       db_inventory (exec seed_defaults priced_shop) !! i = Some d' /\
       _id d' = _id d /\
       fields d' !! "available_kg" = Some (VInt 0) /\
       (forall k, fields d' !! k
                  = match defaults_of p !! k with
                    | Some v => Some v
                    | None => fields d !! k
                    end)) /\
  (forall i d,
     db_inventory priced_shop !! i = Some d ->
     db_inventory (exec list_inventory priced_shop) !! i = Some d).
Proof.
  apply (seed_defaults_overwrites priced_shop).
  - intros c. split.
    + unfold unique_ids. refine (bool_decide_unpack _ _). by destruct c; vm_compute.
    + refine (bool_decide_unpack _ _). by destruct c; vm_compute.
  - apply one_record_per_product_NoDup. refine (bool_decide_unpack _ _). by vm_compute.
Defined.

(** ** Invariants of the reachable states *)

Section Preserves.
Context (P : mongo -> Prop).

Lemma preserves_ret {A} (a : A) : preserves P (ret a).
Proof. by intros db. Qed.

Lemma preserves_raise {A} (e : exception) : preserves P (@raise A e).
Proof. by intros db. Qed.

Lemma preserves_pure {A} (r : result A) : preserves P (pure r).
Proof. by intros db. Qed.

Lemma preserves_mbind {A B} (m : M A) (k : A -> M B) :
  preserves P m -> (forall a, preserves P (k a)) -> preserves P (mbind m k).
Proof.
  intros Hm Hk db HP. unfold mbind. specialize (Hm db HP).
  destruct (m db) as [db' [a|e]]; [by apply Hk|done].
Qed.

Lemma preserves_try_except {A} (m : M A) (e : exception) :
  preserves P m -> preserves P (try_except m e).
Proof.
  intros Hm db HP. unfold try_except. specialize (Hm db HP).
  by destruct (m db) as [db' [a|e']].
Qed.

Lemma preserves_for_each {A} (l : list A) (body : A -> M unit) :
  (forall a, preserves P (body a)) -> preserves P (for_each l body).
Proof.
  intros Hbody. induction l as [|a l IH]; cbn [for_each].
  - apply preserves_ret.
  - apply preserves_mbind; [apply Hbody|by intros _].
Qed.

Lemma preserves_traverse {A B} (f : A -> M B) (l : list A) :
  (forall a, preserves P (f a)) -> preserves P (traverse f l).
Proof.
  intros Hf. induction l as [|a l IH]; cbn [traverse].
  - apply preserves_ret.
  - apply preserves_mbind; [apply Hf|]. intros b.
    apply preserves_mbind; [apply IH|]. intros bs. apply preserves_ret.
Qed.

Lemma preserves_find_one c q : preserves P (find_one c q).
Proof. by intros db. Qed.

Lemma preserves_get_documents c : preserves P (get_documents c).
Proof. by intros db. Qed.

Lemma preserves_response d : preserves P (response d).
Proof. destruct d; [apply preserves_ret|apply preserves_raise]. Qed.
End Preserves.

Lemma update_first_ids q payload (l : list document) :
  _id <$> fst (update_first q payload l) = _id <$> l.
Proof.
  induction l as [|d l IH]; cbn; [done|].
  destruct (matches q d); cbn; [done|].
  destruct (update_first q payload l). cbn in *. by rewrite IH.
Qed.

Lemma ids_lt (n : oid) (l : list document) :
  Forall (fun d => (_id d < n)%N) l <-> Forall (fun o => (o < n)%N) (_id <$> l).
Proof. by rewrite Forall_fmap. Qed.

Lemma wf_update_one c q payload : preserves wf (update_one c q payload).
Proof.
  intros db Hwf c'. unfold update_one.
  pose proof (update_first_ids q payload (coll c db)) as Hids.
  destruct (update_first q payload (coll c db)) as [l n]. cbn [fst] in *.
  destruct (Hwf c) as [Hc1 Hc2]. destruct (Hwf c') as [Hc1' Hc2'].
  unfold unique_ids in *. rewrite ids_lt in Hc2.
  destruct c, c'; cbn [coll set_coll db_customer db_inventory db_order next_oid] in *;
    try done; rewrite ?ids_lt, Hids; done.
Qed.

Lemma wf_insert_one c data : preserves wf (insert_one c data).
Proof.
  intros db Hwf c'. unfold insert_one.
  pose proof (wf_fresh db c Hwf) as Hfresh. apply existsb_find in Hfresh.
  assert (existsb (matches (ById (next_oid db)))
            (coll c (Mongo (db_customer db) (db_inventory db) (db_order db)
                       (next_oid db + 1)%N)) = false) as ->
    by by destruct c.
  assert (forall c0, unique_ids (coll c0 db ++ [Document (next_oid db) data]) /\
                     Forall (fun d => (_id d < next_oid db + 1)%N)
                       (coll c0 db ++ [Document (next_oid db) data])) as Hnew.
  { intros c0. destruct (Hwf c0) as [Hnd Hlt]. split.
    - unfold unique_ids. rewrite fmap_app. apply NoDup_app.
      split; [done|]. split; [|apply NoDup_singleton].
      intros o [d [-> Hd]]%list_elem_of_fmap Hn%list_elem_of_singleton.
      rewrite Forall_forall in Hlt. specialize (Hlt d Hd). cbn in Hlt, Hn. lia.
    - apply Forall_app. split.
      + eapply Forall_impl; [exact Hlt|]. intros d Hd. cbn in Hd. lia.
      + repeat constructor. cbn. lia. }
  assert (forall c0, unique_ids (coll c0 db) /\
                     Forall (fun d => (_id d < next_oid db + 1)%N) (coll c0 db)) as Hold.
  { intros c0. destruct (Hwf c0) as [Hnd Hlt]. split; [done|].
    eapply Forall_impl; [exact Hlt|]. intros d Hd. cbn in Hd. lia. }
  destruct c, c'; cbn [fst coll set_coll db_customer db_inventory db_order next_oid];
    first [apply (Hnew Customer) | apply (Hnew Inventory) | apply (Hnew Order)
          | apply (Hold Customer) | apply (Hold Inventory) | apply (Hold Order)].
Qed.

Lemma wf_create_document c data : preserves wf (create_document c data).
Proof.
  apply preserves_mbind; [apply wf_insert_one|]. intros o. apply preserves_ret.
Qed.

Create HintDb preserves.
#[local] Hint Resolve preserves_ret preserves_raise preserves_pure preserves_find_one
  preserves_get_documents preserves_response preserves_try_except
  wf_update_one wf_insert_one wf_create_document : preserves.

Ltac preserve :=
  repeat first
    [ apply preserves_mbind; [|intros ?]
    | apply preserves_try_except
    | apply preserves_for_each; intros ?
    | apply preserves_traverse; intros ?
    | solve [eauto with preserves]
    | match goal with
      | |- preserves _ (match ?x with _ => _ end) => destruct x
      | |- preserves _ (if ?b then _ else _) => destruct b
      end ].

Lemma wf_handle (r : request) (db : mongo) : wf db -> wf (handle r db).
Proof.
  revert db. change (preserves wf (fun db => (handle r db, Return tt))).
  destruct r; cbn [handle].
  all: match goal with
       | |- preserves _ (fun db => (exec ?m db, _)) =>
           enough (preserves wf m) as H by (intros db Hdb; exact (H db Hdb))
       end.
  - unfold upsert_customer. preserve.
  - unfold update_customer. preserve.
  - unfold list_inventory. preserve.
  - unfold create_or_update_inventory. preserve.
  - unfold update_inventory. preserve.
  - unfold create_order. preserve.
  - unfold update_order_status. preserve.
  - unfold seed_defaults, seed_one. preserve.
Qed.

(** *** One record per product *)

Lemma matches_set_fields (q : string) payload (d : document) :
  payload !! "product" = None ->
  matches (ByField "product" q) (set_fields payload d) = matches (ByField "product" q) d.
Proof. intros Hnone. cbn. by rewrite lookup_union_r. Qed.

Lemma update_first_products q payload (l : list document) (p : string) :
  payload !! "product" = None ->
  matches (ByField "product" p) <$> fst (update_first q payload l)
  = matches (ByField "product" p) <$> l.
Proof.
  intros Hnone. induction l as [|d l IH]; [done|]. cbn [update_first].
  destruct (matches q d).
  - cbn [fst fmap list_fmap]. by rewrite matches_set_fields.
  - destruct (update_first q payload l). cbn in *. by rewrite IH.
Qed.

Lemma one_record_per_product_ext (l l' : list document) :
  (forall p, matches (ByField "product" p) <$> l' = matches (ByField "product" p) <$> l) ->
  one_record_per_product l -> one_record_per_product l'.
Proof.
  intros Hext Hone i j di dj p Hi Hj Hdi Hdj.
  assert (forall k d, l' !! k = Some d -> matches (ByField "product" p) d = true ->
                      exists d0, l !! k = Some d0 /\
                                 matches (ByField "product" p) d0 = true) as Hback.
  { intros k d Hk Hd.
    assert ((matches (ByField "product" p) <$> l) !! k = Some true) as Hm
      by (rewrite <- Hext, list_lookup_fmap, Hk;
          cbn [fmap option_fmap option_map]; by rewrite Hd).
    rewrite list_lookup_fmap in Hm. destruct (l !! k) as [d0|]; [|done].
    injection Hm as Hm. eauto. }
  destruct (Hback i di Hi Hdi) as (di0 & Hi0 & Hdi0).
  destruct (Hback j dj Hj Hdj) as (dj0 & Hj0 & Hdj0).
  by eapply (Hone i j di0 dj0 p).
Qed.

Lemma one_product_update_one c q payload :
  c <> Inventory \/ payload !! "product" = None ->
  preserves one_product (update_one c q payload).
Proof.
  intros Hc db Hone. unfold update_one, one_product in *.
  pose proof (fun p => update_first_products q payload (coll c db) p) as Hext.
  destruct (update_first q payload (coll c db)) as [l n]. cbn [fst] in *.
  destruct c; cbn [coll set_coll db_inventory] in *; try done.
  destruct Hc as [?|Hnone]; [done|].
  eapply one_record_per_product_ext; [|exact Hone]. intros p. by apply Hext.
Qed.

Lemma one_product_insert_one c data :
  c <> Inventory -> preserves one_product (insert_one c data).
Proof.
  intros Hc db Hone. unfold insert_one, one_product in *.
  destruct (existsb _ _); by destruct c.
Qed.

Lemma has_product_false (p : string) (l : list document) :
  has_product p l = false ->
  Forall (fun d => matches (ByField "product" p) d = false) l.
Proof.
  unfold has_product. induction l as [|d l IH]; cbn; [constructor|].
  intros [Hd Hl]%orb_false_elim. constructor; [|by apply IH].
  unfold get in Hd. cbn. by destruct (fields d !! "product") as [[]|].
Qed.

(** Appending the first record of a product keeps one record per product. *)
Lemma one_record_per_product_snoc (l : list document) (d : document) (p : string) :
  one_record_per_product l ->
  fields d !! "product" = Some (VStr p) ->
  Forall (fun d' => matches (ByField "product" p) d' = false) l ->
  one_record_per_product (l ++ [d]).
Proof.
  intros Hone Hd Hnone i j di dj q Hi Hj Hdi Hdj.
  rewrite Forall_forall in Hnone.
  assert (forall k dk, (l ++ [d]) !! k = Some dk ->
                       matches (ByField "product" q) dk = true ->
                       (l !! k = Some dk /\ q <> p) \/ (k = length l /\ q = p)) as Hsplit.
  { intros k dk Hk Hdk. apply lookup_app_Some in Hk as [Hk|[Hge Hk]].
    - left. split; [done|]. intros ->.
      rewrite Hnone in Hdk; [done|]. by eapply list_elem_of_lookup_2.
    - right. apply list_lookup_singleton_Some in Hk as [Hk <-].
      split; [lia|]. revert Hdk. cbn. rewrite Hd. by intros ->%String.eqb_eq. }
  destruct (Hsplit i di Hi Hdi) as [[Hi' ?]|[-> ?]],
           (Hsplit j dj Hj Hdj) as [[Hj' ?]|[-> ?]]; try done.
  by eapply (Hone i j di dj q).
Qed.

Lemma one_record_per_product_seeded (l : list document) (n : oid) :
  one_record_per_product l ->
  one_record_per_product (l ++ number n (missing_defaults l)).
Proof.
  intros Hone. unfold missing_defaults.
  destruct (has_product "suxhuk" l) eqn:Hs, (has_product "mish_te_teren" l) eqn:Hm;
    cbn [app number].
  - by rewrite app_nil_r.
  - by apply (one_record_per_product_snoc _ _ "mish_te_teren"), has_product_false.
  - by apply (one_record_per_product_snoc _ _ "suxhuk"), has_product_false.
  - change (l ++ [?a; ?b]) with (l ++ [a] ++ [b]). rewrite app_assoc.
    apply (one_record_per_product_snoc _ _ "mish_te_teren"); [|done|].
    + by apply (one_record_per_product_snoc _ _ "suxhuk"), has_product_false.
    + apply Forall_app. split; [by apply has_product_false|]. by repeat constructor.
Qed.

Lemma seed_list_one_record item n (l : list document) :
  unique_ids l ->
  one_record_per_product l ->
  item !! "product" = Some (VStr (item_product item)) ->
  one_record_per_product (seed_list item n l).
Proof.
  intros Hunique Hone Hitem. unfold seed_list.
  destruct (find _ l) as [e|] eqn:Hfind.
  - destruct (find_lookup _ _ _ Hfind) as (k & Hk & He & _).
    rewrite (update_first_by_id _ _ k e Hunique Hk). cbn [fst].
    eapply one_record_per_product_ext; [|exact Hone]. intros p.
    rewrite list_fmap_insert. apply list_insert_id.
    rewrite list_lookup_fmap, Hk. cbn. f_equal.
    rewrite lookup_union, Hitem. cbn in He.
    destruct (fields e !! "product") as [[]|] eqn:Hp; try done. cbn.
    by apply String.eqb_eq in He as ->.
  - apply (one_record_per_product_snoc _ _ (item_product item)); [done..|].
    by apply find_None_Forall.
Qed.

#[local] Hint Extern 1 (preserves one_product (update_one _ _ _)) =>
  apply one_product_update_one; first [left; discriminate | right; reflexivity]
  : preserves.
#[local] Hint Extern 1 (preserves one_product (insert_one _ _)) =>
  apply one_product_insert_one; discriminate : preserves.

(** Upserting an inventory item is one turn of the seeding loop with the
    item's payload. *)
Lemma create_or_update_inventory_run item now db :
  wf db ->
  db_inventory (exec (create_or_update_inventory item now) db)
  = seed_list (<["updated_at" := VDatetime now]> (InventoryItemIn.model_dump item))
      (next_oid db) (db_inventory db).
Proof.
  intros Hwf. destruct (Hwf Inventory) as [Hunique Hlt]. cbn [coll] in *.
  unfold exec, create_or_update_inventory, seed_list, create_document, insert_one,
    update_one, find_one, mbind, pure, ret.
  cbn [coll].
  change (item_product (<["updated_at" := VDatetime now]> (InventoryItemIn.model_dump item)))
    with (product_name (InventoryItemIn.product item)).
  destruct (find _ (db_inventory db)) as [e|].
  - cbn [coll]. destruct (update_first _ _ _) as [l n]. cbn.
    by destruct (find _ l).
  - cbn [coll db_order db_customer db_inventory next_oid set_coll].
    rewrite fresh_id by done.
    cbn [coll db_order db_customer db_inventory next_oid set_coll].
    destruct (ObjectId _); cbn; [|done]. by destruct (find _ _).
Qed.

Lemma update_inventory_run product item now db :
  db_inventory (exec (update_inventory product item now) db) = db_inventory db \/
  db_inventory (exec (update_inventory product item now) db)
  = seed_list (<["updated_at" := VDatetime now]> (InventoryItemIn.model_dump item))
      (next_oid db) (db_inventory db).
Proof.
  unfold exec, update_inventory.
  destruct (String.eqb_spec (product_name (InventoryItemIn.product item)) product)
    as [<-|]; cbn [negb]; [|by left].
  unfold seed_list, update_one, find_one, mbind, raise. cbn [coll].
  change (item_product (<["updated_at" := VDatetime now]> (InventoryItemIn.model_dump item)))
    with (product_name (InventoryItemIn.product item)).
  destruct (find _ (db_inventory db)) as [e|]; [|by left].
  right. cbn [coll]. destruct (update_first _ _ _) as [l n]. cbn.
  by destruct (find _ l).
Qed.

Lemma one_product_handle (r : request) (db : mongo) :
  wf db -> one_product db -> one_product (handle r db).
Proof.
  intros Hwf Hone. destruct (Hwf Inventory) as [Hunique Hlt]. cbn [coll] in *.
  destruct r; cbn [handle].
  - clear Hwf Hunique Hlt. revert db Hone. change (preserves one_product (upsert_customer data now)).
    unfold upsert_customer, create_document. preserve.
  - clear Hwf Hunique Hlt. revert db Hone.
    change (preserves one_product (update_customer customer_id data now)).
    unfold update_customer. preserve.
  - unfold one_product, exec. rewrite list_inventory_run by done. cbn [fst db_inventory].
    by apply one_record_per_product_seeded.
  - unfold one_product. rewrite create_or_update_inventory_run by done.
    by apply seed_list_one_record.
  - unfold one_product.
    destruct (update_inventory_run product item now db) as [->| ->]; [done|].
    by apply seed_list_one_record.
  - clear Hwf Hunique Hlt. revert db Hone.
    change (preserves one_product (create_order order now1 now2 now3)).
    unfold create_order, create_document. preserve.
  - clear Hwf Hunique Hlt. revert db Hone.
    change (preserves one_product (update_order_status order_id body now)).
    unfold update_order_status. preserve.
  - destruct (seed_defaults_run db Hunique Hlt) as (n1 & n2 & Hunique1 & Hrun).
    unfold one_product, exec. rewrite Hrun. cbn [fst db_inventory].
    apply seed_list_one_record; [done| |done].
    by apply seed_list_one_record.
Qed.

(** X19: every state the API can reach from an empty database is well formed
    and holds at most one inventory record per product. *)
Theorem reachable_invariant (db : mongo) :
  reachable db -> wf db /\ one_record_per_product (db_inventory db).
Proof.
  induction 1 as [n|r db _ [Hwf Hone]].
  - split.
    + intros c. destruct c; cbn; split; constructor.
    + by intros [|i] j di dj p.
  - split; [by apply wf_handle|by apply one_product_handle].
Qed.

(** * Further properties *)

(** ** Ids as strings *)

Lemma hex_digit_hex_char (d : N) : (d < 16)%N -> hex_digit (hex_char d) = Some d.
Proof.
  intros Hd.
  assert (d = 0 \/ d = 1 \/ d = 2 \/ d = 3 \/ d = 4 \/ d = 5 \/ d = 6 \/ d = 7 \/
          d = 8 \/ d = 9 \/ d = 10 \/ d = 11 \/ d = 12 \/ d = 13 \/ d = 14 \/
          d = 15)%N as Hcases by lia.
  repeat destruct Hcases as [->|Hcases]; try reflexivity. by subst.
Qed.

Lemma length_tohex (n : nat) (o : N) (acc : string) :
  String.length (tohex n o acc) = (n + String.length acc)%nat.
Proof.
  revert o acc. induction n as [|n IH]; intros o acc; cbn [tohex]; [done|].
  rewrite IH. cbn. lia.
Qed.

Lemma fromhex_tohex (n : nat) (o a : N) (acc : string) :
  (o < 16 ^ N.of_nat n)%N ->
  fromhex (tohex n o acc) a = fromhex acc (a * 16 ^ N.of_nat n + o)%N.
Proof.
  revert o a acc. induction n as [|n IH]; intros o a acc Ho; cbn [tohex].
  - cbn in Ho. f_equal. cbn. lia.
  - rewrite Nat2N.inj_succ, N.pow_succ_r' in Ho.
    rewrite IH by (apply N.Div0.div_lt_upper_bound; lia).
    cbn [fromhex]. rewrite hex_digit_hex_char by (apply N.mod_lt; lia).
    f_equal. rewrite Nat2N.inj_succ, N.pow_succ_r'.
    pose proof (N.div_mod o 16). lia.
Qed.

(** The string of an id parses back to the id. *)
Lemma ObjectId_str (o : oid) : (o < 2 ^ 96)%N -> ObjectId (str o) = Return o.
Proof.
  intros Ho. unfold ObjectId, str. rewrite length_tohex. cbn [String.length Nat.add Nat.eqb].
  rewrite fromhex_tohex by (by change (16 ^ N.of_nat 24)%N with (2 ^ 96)%N).
  cbn [fromhex]. by rewrite N.mul_0_l, N.add_0_l.
Qed.

(** ** Order placement, further *)




Lemma ObjectId_raises (s : string) (e : exception) :
  ObjectId s = Raise e -> e = InvalidId.
Proof.
  unfold ObjectId. destruct (Nat.eqb _ _); [|by intros [= <-]].
  destruct (fromhex s 0%N); [done|by intros [= <-]].
Qed.


(** X2: an order answered with an HTTP error wrote nothing: the database is
    exactly as it was. *)
Theorem create_order_refused_unchanged order now1 now2 now3 db db' status_code detail :
  create_order order now1 now2 now3 db = (db', Raise (HTTPException status_code detail)) ->
  db' = db.
Proof.
  unfold create_order, mbind, try_except, pure, find_one, raise. cbn [coll].
  intros H.
  destruct (ObjectId (OrderIn.customer_id order)) as [o|e]; [|by inversion H].
  destruct (find (matches (ById o)) (db_customer db)) as [cust|]; [|by inversion H].
  destruct (find _ (db_inventory db)) as [inv|]; [|by inversion H].
  destruct (Py.int (get_default (fields inv) "min_kg" (VInt 1))) as [min|e];
    [|by inversion H].
  destruct (OrderIn.quantity_kg order <? min); [by inversion H|].
  destruct (Py.int (get_default (fields inv) "step_kg" (VInt 1))) as [step|e];
    [|by inversion H].
  destruct (Py.mod_int _ step) as [m|e]; [|by inversion H].
  destruct (negb (m =? 0)); [by inversion H|].
  destruct (Py.float (get_default (fields inv) "price_per_kg" (VInt 0))) as [price|e];
    [|by inversion H].
  destruct (Py.mul (Py.Float price) _) as [product|e]; [|by inversion H].
  destruct (Py.float (get_default (fields inv) "available_kg" (VInt 0)))
    as [available|e]; [|by inversion H].
  destruct (Py.sub (Py.Float available) _) as [new_available|e]; [|by inversion H].
  destruct (Py.int (get_default (fields inv) "batch_threshold_kg" (VInt 15)))
    as [threshold|e]; [|by inversion H].
  destruct (if Py.gt_0 _ then _ else _) as [b|e]; [|by inversion H].
  destruct (Py.int_of_num b) as [bi|e]; [|by inversion H].
  exfalso. revert H.
  unfold create_document, insert_one, update_one, mbind, ret.
  cbn [coll db_order db_customer db_inventory next_oid set_coll].
  destruct (existsb _ (db_order db)); [done|].
  cbn [coll db_order db_customer db_inventory next_oid set_coll].
  destruct (update_first _ _ (db_inventory db)) as [l n].
  cbn [coll db_order db_customer db_inventory next_oid set_coll].
  destruct (ObjectId (str (next_oid db))) as [o'|e] eqn:Hid.
  - cbn. match goal with |- context [to_str_id ?x] =>
      destruct (to_str_id x) eqn:Hsaved end; cbn; [|done].
    by rewrite (isoformat_after_to_str_id _ _ _ Hsaved).
  - apply ObjectId_raises in Hid as ->. done.
Qed.

Lemma create_order_refused_unchanged_witness :
  exec (create_order (order_of suxhuk 1) 10 11 12) custom_shop = custom_shop.
Proof.
  apply (create_order_refused_unchanged (order_of suxhuk 1) 10 11 12 custom_shop
           (exec (create_order (order_of suxhuk 1) 10 11 12) custom_shop)
           400 [Lit "Minimum order is "; Fmt (VInt 3); Lit " kg"]).
  by vm_compute.
Defined.



(** The debit of a persisted order, record by record. *)
Lemma placed_debit order now1 now2 now3 db db' r d :
  unique_ids (db_inventory db) ->
  create_order order now1 now2 now3 db = (db', r) ->
  placed db db' d ->
  exists inv i available quantity_kg,
    find (matches (ByField "product" (product_name (OrderIn.product order))))
      (db_inventory db) = Some inv /\
    db_inventory db !! i = Some inv /\
    (forall j dj, (j < i)%nat -> db_inventory db !! j = Some dj ->
       matches (ByField "product" (product_name (OrderIn.product order))) dj = false) /\
    Py.float (get_default (fields inv) "available_kg" (VInt 0)) = Return available /\
    PyFloat.of_Z (OrderIn.quantity_kg order) = Some quantity_kg /\
    db_inventory db'
      = <[i := Document (_id inv)
                 (<["available_kg" := VFloat (available - quantity_kg)]>
                  (<["updated_at" := VDatetime now3]> (fields inv)))]>
          (db_inventory db).
Proof.
  intros Hunique Hrun Hplaced.
  destruct (placed_inv _ _ _ _ _ _ _ _ Hrun Hplaced)
    as (inv & total & new_available & bi & Hacc & -> & Hcust & Hinventory).
  destruct Hacc as [_ Hinv _ _ _ (available & Havail & Hnew) _ _].
  destruct (find_lookup _ _ _ Hinv) as (i & Hi & _ & Hfirst).
  unfold Py.sub, Py.binop, bind, Py.to_float in Hnew.
  destruct (PyFloat.of_Z (OrderIn.quantity_kg order)) as [q|] eqn:Hq; [|done].
  injection Hnew as <-.
  exists inv, i, available, q.
  by rewrite Hinventory, (update_first_by_id _ _ i inv Hunique Hi), set_fields_debit.
Qed.

(** X4: debits add up: after two persisted orders of one product, the stock of
    its record is the initial stock minus the first quantity minus the
    second, and [updated_at] is the time of the second debit; the record
    keeps its place and its other fields, and no other record changes. *)
Theorem create_order_twice order1 order2 now1 now2 now3 now4 now5 now6
    db db1 db2 r1 r2 d1 d2 :
  unique_ids (db_inventory db) ->
  OrderIn.product order2 = OrderIn.product order1 ->
  create_order order1 now1 now2 now3 db = (db1, r1) ->
  placed db db1 d1 ->
  create_order order2 now4 now5 now6 db1 = (db2, r2) ->
  placed db1 db2 d2 ->
  exists inv i available quantity1 quantity2,
    db_inventory db !! i = Some inv /\
    find (matches (ByField "product" (product_name (OrderIn.product order1))))
      (db_inventory db) = Some inv /\
    Py.float (get_default (fields inv) "available_kg" (VInt 0)) = Return available /\
    PyFloat.of_Z (OrderIn.quantity_kg order1) = Some quantity1 /\
    PyFloat.of_Z (OrderIn.quantity_kg order2) = Some quantity2 /\
    db_inventory db2
      = <[i := Document (_id inv)
                 (<["available_kg" := VFloat (available - quantity1 - quantity2)]>
                  (<["updated_at" := VDatetime now6]> (fields inv)))]>
          (db_inventory db).
Proof.
  intros Hunique Hproduct Hrun1 Hplaced1 Hrun2 Hplaced2.
  destruct (placed_debit _ _ _ _ _ _ _ _ Hunique Hrun1 Hplaced1)
    as (inv & i & a & q1 & Hinv & Hi & Hfirst & Ha & Hq1 & Hdb1).
  set (inv1 := Document (_id inv)
                 (<["available_kg" := VFloat (a - q1)]>
                    (<["updated_at" := VDatetime now3]> (fields inv)))) in *.
  assert (unique_ids (db_inventory db1)) as Hunique1.
  { unfold unique_ids. rewrite Hdb1, list_fmap_insert. cbn [_id inv1].
    by rewrite list_insert_id by by rewrite list_lookup_fmap, Hi. }
  assert (db_inventory db1 !! i = Some inv1) as Hi1.
  { rewrite Hdb1. by apply list_lookup_insert_eq, lookup_lt_Some with inv. }
  destruct (placed_debit _ _ _ _ _ _ _ _ Hunique1 Hrun2 Hplaced2)
    as (inv' & i' & a' & q2 & Hinv' & Hi' & _ & Ha' & Hq2 & Hdb2).
  assert (find (matches (ByField "product" (product_name (OrderIn.product order2))))
            (db_inventory db1) = Some inv1) as Hfind1.
  { rewrite Hdb1, Hproduct. apply (find_insert _ _ i inv inv1 Hi Hfirst).
    destruct (find_lookup _ _ _ Hinv) as (k & Hk & Hm & _).
    revert Hm. cbn. rewrite !lookup_insert_ne by done. done. }
  rewrite Hfind1 in Hinv'. injection Hinv' as <-.
  assert (i' = i) as ->.
  { eapply NoDup_lookup; [exact Hunique1| |].
    - by rewrite list_lookup_fmap, Hi'.
    - by rewrite list_lookup_fmap, Hi1. }
  assert (a' = (a - q1)%float) as ->.
  { revert Ha'. unfold get_default, inv1. cbn [fields].
    rewrite lookup_insert_eq. cbn. by intros [= <-]. }
  exists inv, i, a, q1, q2. repeat split; try done.
  rewrite Hdb2, Hdb1, list_insert_insert_eq. f_equal. unfold inv1. cbn [_id fields].
  f_equal. apply map_eq. intros k.
  rewrite !lookup_insert. repeat case_decide; congruence.
Qed.

Lemma create_order_twice_witness :
  exists inv i available quantity1 quantity2,
    db_inventory shop !! i = Some inv /\
    find (matches (ByField "product" "suxhuk")) (db_inventory shop) = Some inv /\
    Py.float (get_default (fields inv) "available_kg" (VInt 0)) = Return available /\
    PyFloat.of_Z 50 = Some quantity1 /\
    PyFloat.of_Z 7 = Some quantity2 /\
    db_inventory (exec (create_order (order_of suxhuk 7) 20 21 22) busy_shop)
      = <[i := Document (_id inv)
                 (<["available_kg" := VFloat (available - quantity1 - quantity2)]>
                  (<["updated_at" := VDatetime 22]> (fields inv)))]>
          (db_inventory shop).
Proof.
  apply (create_order_twice (order_of suxhuk 50) (order_of suxhuk 7) 10 11 12 20 21 22
           shop busy_shop (exec (create_order (order_of suxhuk 7) 20 21 22) busy_shop)
           (snd (create_order (order_of suxhuk 50) 10 11 12 shop))
           (snd (create_order (order_of suxhuk 7) 20 21 22 busy_shop))
           (Document 3%N (order_doc (order_of suxhuk 50) (Py.Float 2500) 3 10 11))
           (Document 4%N (order_doc (order_of suxhuk 7) (Py.Float 350) 3 20 21))).
  - unfold unique_ids. refine (bool_decide_unpack _ _). by vm_compute.
  - reflexivity.
  - by vm_compute.
  - by vm_compute.
  - by vm_compute.
  - by vm_compute.
Defined.

(** ** Listing orders *)

Lemma entry_id (d : document) : entry d !! "id" = Some (VStr (str (_id d))).
Proof. unfold entry. by rewrite lookup_fmap, lookup_insert_eq. Qed.

Lemma traverse_returns {A B} (f : A -> M B) (g : A -> B) (l : list A) (db : mongo) :
  (forall a db, f a db = (db, Return (g a))) ->
  traverse f l db = (db, Return (g <$> l)).
Proof.
  intros Hf. induction l as [|a l IH]; [done|].
  cbn [traverse]. unfold mbind, ret. by rewrite Hf, IH.
Qed.

Lemma list_orders_run now db :
  list_orders now db = (db, Return (order_entry <$> db_order db)).
Proof.
  unfold list_orders, get_documents. unfold mbind at 1. cbn [coll].
  apply traverse_returns. intros d db0. cbn [to_str_id]. fold (entry d).
  unfold mbind, pure, response, ret, order_entry.
  pose proof (entry_no_datetime d "created_at") as Hno.
  destruct (get (entry d) "created_at"); try done. by destruct (Hno t).
Qed.

(** X5: [list_orders] writes nothing and never reads the clock: whatever the
    orders hold, the dictionaries it builds are the entries of the stored
    orders, in insertion order.  An entry carries the id as a string, shows
    every stored datetime as its ISO string and every other stored field as
    it is, and has [created_at] set to [None] when the order has none. *)
Theorem list_orders_total now db :
  list_orders now db = (db, Return (order_entry <$> db_order db)) /\
  (forall d, order_entry d !! "id" = Some (VStr (str (_id d)))) /\
  (forall d k t, k <> "id" -> fields d !! k = Some (VDatetime t) ->
                 order_entry d !! k = Some (VIsoformat t)) /\
  (forall d k v, k <> "id" -> fields d !! k = Some v ->
                 (forall t, v <> VDatetime t) -> order_entry d !! k = Some v) /\
  (forall d, fields d !! "created_at" = None ->
             order_entry d !! "created_at" = Some VNone).
Proof.
  split; [apply list_orders_run|].
  assert (forall d k, k <> "id" ->
            entry d !! k
            = (fun v => match v with VDatetime t => VIsoformat t | _ => v end)
                <$> fields d !! k) as Hentry.
  { intros d k Hk. unfold entry. by rewrite lookup_fmap, lookup_insert_ne. }
  assert (forall d k, k <> "id" -> order_entry d !! k
            = if decide (k = "created_at")
              then Some (get (entry d) "created_at") else entry d !! k) as Horder.
  { intros d k Hk. unfold order_entry. case_decide as Hc.
    - subst k. by rewrite lookup_insert_eq.
    - by rewrite lookup_insert_ne. }
  repeat split.
  - intros d. unfold order_entry. rewrite lookup_insert_ne by done. apply entry_id.
  - intros d k t Hk Hd. rewrite Horder by done. case_decide as Hc.
    + subst k. unfold get. by rewrite Hentry, Hd.
    + by rewrite Hentry, Hd.
  - intros d k v Hk Hd Hv. rewrite Horder by done. case_decide as Hc.
    + subst k. unfold get. rewrite Hentry, Hd by done. cbn.
      destruct v; try done. by destruct (Hv t).
    + rewrite Hentry, Hd by done. cbn. destruct v; try done. by destruct (Hv t).
  - intros d Hd. rewrite Horder by done. case_decide; [|done].
    unfold get. by rewrite Hentry, Hd.
Qed.

Lemma list_orders_total_witness :
  list_orders (fun _ => 99) busy_shop
    = (busy_shop, Return (order_entry <$> db_order busy_shop)) /\
  order_entry (Document 3%N (order_doc (order_of suxhuk 50) (Py.Float 2500) 3 10 11))
    !! "created_at" = Some (VIsoformat 10) /\
  order_entry (Document 3%N (order_doc (order_of suxhuk 50) (Py.Float 2500) 3 10 11))
    !! "status" = Some (VStr "received") /\
  order_entry (Document 7%N (<["status" := VStr "received"]> ∅))
    !! "created_at" = Some VNone.
Proof.
  split; [|split; [|split]].
  - apply (proj1 (list_orders_total (fun _ => 99) busy_shop)).
  - apply (proj1 (proj2 (proj2 (list_orders_total (fun _ => 99) busy_shop)))).
    + done.
    + by vm_compute.
  - apply (proj1 (proj2 (proj2 (proj2 (list_orders_total (fun _ => 99) busy_shop))))).
    + done.
    + by vm_compute.
    + done.
  - apply (proj2 (proj2 (proj2 (proj2 (list_orders_total (fun _ => 99) busy_shop))))).
    by vm_compute.
Defined.

(** X6: a persisted order is listed last, under the id it was given, with status
    "received": the order is there although [create_order] raised. *)
Theorem placed_order_listed order now1 now2 now3 now db db' r d :
  create_order order now1 now2 now3 db = (db', r) ->
  placed db db' d ->
  exists listing e,
    list_orders now db' = (db', Return (listing ++ [e])) /\
    length listing = length (db_order db) /\
    e !! "id" = Some (VStr (str (next_oid db))) /\
    e !! "status" = Some (VStr "received") /\
    e !! "product" = Some (VStr (product_name (OrderIn.product order))) /\
    e !! "quantity_kg" = Some (VInt (OrderIn.quantity_kg order)) /\
    e !! "created_at" = Some (VIsoformat now1).
Proof.
  intros Hrun Hplaced.
  destruct (placed_inv _ _ _ _ _ _ _ _ Hrun Hplaced)
    as (inv & total & new_available & bi & _ & -> & _).
  exists (order_entry <$> db_order db),
    (order_entry (Document (next_oid db) (order_doc order total bi now1 now2))).
  rewrite list_orders_run, Hplaced, fmap_app. split; [done|].
  split; [by rewrite length_fmap|]. repeat split; by vm_compute.
Qed.

Lemma placed_order_listed_witness :
  exists listing e,
    list_orders (fun _ => 99) busy_shop = (busy_shop, Return (listing ++ [e])) /\
    length listing = length (db_order shop) /\
    e !! "id" = Some (VStr (str (next_oid shop))) /\
    e !! "status" = Some (VStr "received") /\
    e !! "product" = Some (VStr "suxhuk") /\
    e !! "quantity_kg" = Some (VInt 50) /\
    e !! "created_at" = Some (VIsoformat 10).
Proof.
  apply (placed_order_listed (order_of suxhuk 50) 10 11 12 (fun _ => 99) shop busy_shop
           (snd (create_order (order_of suxhuk 50) 10 11 12 shop))
           (Document 3%N (order_doc (order_of suxhuk 50) (Py.Float 2500) 3 10 11))).
  - by vm_compute.
  - by vm_compute.
Defined.

(** ** Customers, further *)



(** X8: what one upsert does to a well-formed database: under a new email one
    customer is appended, with [created_at] the time of the call; under a
    known email the first customer with that email is rewritten in place and
    keeps its id and its [created_at].  Either way the request's fields and
    [updated_at] are stored, and inventory and orders are not touched. *)
Theorem upsert_customer_effect data now db :
  wf db ->
  let db' := exec (upsert_customer data now) db in
  let q := ByField "email" (CustomerIn.email data) in
  db_inventory db' = db_inventory db /\
  db_order db' = db_order db /\
  (find (matches q) (db_customer db) = None ->
   db_customer db'
     = db_customer db
       ++ [Document (next_oid db) (customer_payload data (VDatetime now) now)]) /\
  (forall e, find (matches q) (db_customer db) = Some e ->
   exists i,
     db_customer db !! i = Some e /\
     db_customer db'
       = <[i := Document (_id e)
                  (customer_payload data (get (fields e) "created_at") now
                   ∪ fields e)]> (db_customer db)) /\
  (exists d,
     find (matches q) (db_customer db') = Some d /\
     fields d !! "updated_at" = Some (VDatetime now) /\
     forall k v, CustomerIn.model_dump data !! k = Some v -> fields d !! k = Some v).
Proof.
  intros Hwf db' q. destruct (Hwf Customer) as [Hunique Hlt]. cbn [coll] in *.
  assert (forall created_at d,
            (customer_payload data created_at now ∪ d) !! "updated_at"
              = Some (VDatetime now) /\
            forall k v, CustomerIn.model_dump data !! k = Some v ->
                        (customer_payload data created_at now ∪ d) !! k = Some v)
    as Hpayload.
  { intros created_at d. split; [by apply lookup_union_Some_l|].
    intros k v Hk. apply lookup_union_Some_l. unfold customer_payload.
    rewrite !lookup_insert_ne; [done|intros <-; by vm_compute in Hk..]. }
  destruct (find (matches q) (db_customer db)) as [e|] eqn:Hfind.
  - destruct (find_lookup _ _ _ Hfind) as (i & Hi & He & Hfirst).
    unfold db'. rewrite (upsert_customer_update data now db e i Hunique Hfind Hi).
    cbn [db_customer db_inventory db_order].
    repeat split; try done.
    + intros e' [= <-]. by exists i.
    + exists (set_fields (customer_payload data (get (fields e) "created_at") now) e).
      split; [|apply Hpayload].
      apply (find_insert _ _ i e _ Hi Hfirst). cbn.
      rewrite (lookup_union_Some_l _ _ _ _ (customer_payload_email _ _ _)).
      apply String.eqb_refl.
  - unfold db'. rewrite (upsert_customer_insert data now db Hwf Hfind).
    cbn [db_customer db_inventory db_order].
    repeat split; try done.
    exists (Document (next_oid db) (customer_payload data (VDatetime now) now)).
    split.
    + rewrite find_app_None by done. cbn. rewrite customer_payload_email.
      by rewrite String.eqb_refl.
    + cbn [fields]. rewrite <- (right_id_L ∅ (∪) (customer_payload _ _ _)).
      apply Hpayload.
Qed.

Lemma upsert_customer_effect_witness :
  let db' := exec (upsert_customer alicia 2) registered in
  let q := ByField "email" (CustomerIn.email alicia) in
  db_inventory db' = db_inventory registered /\
  db_order db' = db_order registered /\
  (find (matches q) (db_customer registered) = None ->
   db_customer db'
     = db_customer registered
       ++ [Document (next_oid registered) (customer_payload alicia (VDatetime 2) 2)]) /\
  (forall e, find (matches q) (db_customer registered) = Some e ->
   exists i,
     db_customer registered !! i = Some e /\
     db_customer db'
       = <[i := Document (_id e)
                  (customer_payload alicia (get (fields e) "created_at") 2
                   ∪ fields e)]> (db_customer registered)) /\
  (exists d,
     find (matches q) (db_customer db') = Some d /\
     fields d !! "updated_at" = Some (VDatetime 2) /\
     forall k v, CustomerIn.model_dump alicia !! k = Some v -> fields d !! k = Some v).
Proof.
  apply (upsert_customer_effect alicia 2 registered).
  intros c. split.
  - unfold unique_ids. refine (bool_decide_unpack _ _). by destruct c; vm_compute.
  - refine (bool_decide_unpack _ _). by destruct c; vm_compute.
Defined.

Lemma upsert_customer_run_update data now db e i :
  unique_ids (db_customer db) ->
  find (matches (ByField "email" (CustomerIn.email data))) (db_customer db) = Some e ->
  db_customer db !! i = Some e ->
  let d := set_fields (customer_payload data (get (fields e) "created_at") now) e in
  upsert_customer data now db
  = (Mongo (<[i := d]> (db_customer db)) (db_inventory db) (db_order db) (next_oid db),
     Return (entry d)).
Proof.
  intros Hunique Hfind Hi d.
  unfold upsert_customer, mbind, find_one, update_one, pure, ret.
  cbn [coll]. rewrite Hfind.
  fold (customer_payload data (get (fields e) "created_at") now).
  cbn [coll]. rewrite (update_first_by_id _ _ i e Hunique Hi).
  cbn [coll db_order db_customer db_inventory next_oid set_coll]. fold d.
  rewrite (find_insert _ _ i e d Hi);
    [done|by apply unique_ids_first|cbn; apply N.eqb_refl].
Qed.

Lemma upsert_customer_run_insert data now db :
  wf db ->
  (next_oid db < 2 ^ 96)%N ->
  find (matches (ByField "email" (CustomerIn.email data))) (db_customer db) = None ->
  let d := Document (next_oid db) (customer_payload data (VDatetime now) now) in
  upsert_customer data now db
  = (Mongo (db_customer db ++ [d]) (db_inventory db) (db_order db) (next_oid db + 1)%N,
     Return (entry d)).
Proof.
  intros Hwf Hbound Hfind d.
  pose proof (wf_fresh db Customer Hwf) as Hnone.
  pose proof (proj2 (existsb_find _ _) Hnone) as Hfresh.
  unfold upsert_customer, create_document, insert_one, mbind, find_one, pure, ret.
  cbn [coll] in *. rewrite Hfind.
  cbn [coll db_order db_customer db_inventory next_oid set_coll].
  rewrite Hfresh.
  cbn [coll db_order db_customer db_inventory next_oid set_coll].
  fold (customer_payload data (VDatetime now) now). fold d.
  rewrite (ObjectId_str _ Hbound).
  cbn [coll db_order db_customer db_inventory next_oid set_coll].
  rewrite find_app_None by done. cbn [find matches _id d]. by rewrite N.eqb_refl.
Qed.

(** X9: the answer of an upsert can be fetched again: on a well-formed database
    whose counter fits an id, [upsert_customer] returns the entry of the
    customer it stored, that entry carries the customer's id as a string, and
    [get_customer] with that string returns the same entry. *)
Theorem upsert_then_get data now db :
  wf db ->
  (next_oid db < 2 ^ 96)%N ->
  let db' := exec (upsert_customer data now) db in
  exists d,
    find (matches (ByField "email" (CustomerIn.email data))) (db_customer db') = Some d /\
    upsert_customer data now db = (db', Return (entry d)) /\
    entry d !! "id" = Some (VStr (str (_id d))) /\
    get_customer (str (_id d)) db' = (db', Return (entry d)).
Proof.
  intros Hwf Hbound db'. destruct (Hwf Customer) as [Hunique Hlt]. cbn [coll] in *.
  assert (forall d, find (matches (ById (_id d))) (db_customer db') = Some d ->
                    (_id d < 2 ^ 96)%N ->
                    get_customer (str (_id d)) db' = (db', Return (entry d))) as Hget.
  { intros d Hd Hid.
    unfold get_customer, mbind, try_except, pure, find_one.
    rewrite (ObjectId_str _ Hid). cbn [coll]. by rewrite Hd. }
  destruct (find (matches (ByField "email" (CustomerIn.email data))) (db_customer db))
    as [e|] eqn:Hfind.
  - destruct (find_lookup _ _ _ Hfind) as (i & Hi & He & Hfirst).
    pose proof (upsert_customer_run_update data now db e i Hunique Hfind Hi) as Hrun.
    cbv zeta in Hrun.
    set (d := set_fields (customer_payload data (get (fields e) "created_at") now) e)
      in *.
    assert (db' = Mongo (<[i := d]> (db_customer db)) (db_inventory db) (db_order db)
                    (next_oid db)) as Hdb' by (unfold db', exec; by rewrite Hrun).
    exists d. rewrite Hrun, <- Hdb'.
    split; [|split; [done|split; [apply entry_id|]]].
    + rewrite Hdb'. cbn [db_customer]. apply (find_insert _ _ i e d Hi Hfirst). cbn.
      rewrite (lookup_union_Some_l _ _ _ _ (customer_payload_email _ _ _)).
      apply String.eqb_refl.
    + apply Hget.
      * rewrite Hdb'. cbn [db_customer]. apply (find_insert _ _ i e d Hi).
        -- exact (unique_ids_first _ i e Hunique Hi).
        -- cbn. apply N.eqb_refl.
      * rewrite Forall_forall in Hlt.
        specialize (Hlt e (list_elem_of_lookup_2 _ _ _ Hi)). cbn in *. lia.
  - pose proof (upsert_customer_run_insert data now db Hwf Hbound Hfind) as Hrun.
    cbv zeta in Hrun.
    set (d := Document (next_oid db) (customer_payload data (VDatetime now) now)) in *.
    assert (db' = Mongo (db_customer db ++ [d]) (db_inventory db) (db_order db)
                    (next_oid db + 1)%N) as Hdb' by (unfold db', exec; by rewrite Hrun).
    exists d. rewrite Hrun, <- Hdb'.
    split; [|split; [done|split; [apply entry_id|]]].
    + rewrite Hdb'. cbn [db_customer]. rewrite find_app_None by done. cbn.
      rewrite customer_payload_email. by rewrite String.eqb_refl.
    + apply Hget; [|done].
      rewrite Hdb'. cbn [db_customer].
      rewrite find_app_None by apply (wf_fresh db Customer Hwf).
      cbn. by rewrite N.eqb_refl.
Qed.

Lemma upsert_then_get_witness :
  let db' := exec (upsert_customer alice 1) empty_db in
  exists d,
    find (matches (ByField "email" (CustomerIn.email alice))) (db_customer db') = Some d /\
    upsert_customer alice 1 empty_db = (db', Return (entry d)) /\
    entry d !! "id" = Some (VStr (str (_id d))) /\
    get_customer (str (_id d)) db' = (db', Return (entry d)).
Proof.
  apply (upsert_then_get alice 1 empty_db).
  - intros c. split.
    + unfold unique_ids. refine (bool_decide_unpack _ _). by destruct c; vm_compute.
    + refine (bool_decide_unpack _ _). by destruct c; vm_compute.
  - by vm_compute.
Defined.

Lemma update_customer_found customer_id data now db o i d :
  ObjectId customer_id = Return o ->
  unique_ids (db_customer db) ->
  db_customer db !! i = Some d ->
  _id d = o ->
  let d' := set_fields (<["updated_at" := VDatetime now]> (CustomerIn.model_dump data)) d in
  update_customer customer_id data now db
  = (Mongo (<[i := d']> (db_customer db)) (db_inventory db) (db_order db) (next_oid db),
     Return (entry d')).
Proof.
  intros Hid Hunique Hi <- d'.
  unfold update_customer, try_except, update_one, find_one, mbind, pure, raise.
  cbn [coll]. rewrite Hid, (update_first_by_id _ _ i d Hunique Hi).
  cbn [Z.eqb coll set_coll db_customer]. fold d'.
  rewrite (find_insert _ _ i d d' Hi);
    [done|by eapply unique_ids_first|cbn; apply N.eqb_refl].
Qed.



Lemma count_cons (q : query) (d : document) (l : list document) :
  count q (d :: l) = ((if matches q d then 1 else 0) + count q l)%nat.
Proof. unfold count. cbn. by destruct (matches q d). Qed.

Lemma count_lookup (q : query) (l : list document) i d :
  l !! i = Some d -> matches q d = true -> (1 <= count q l)%nat.
Proof.
  revert i. induction l as [|a l IH]; intros [|i]; cbn [lookup list_lookup]; try done.
  - intros [= ->] Hd. rewrite count_cons, Hd. lia.
  - intros Hi Hd. rewrite count_cons. specialize (IH i Hi Hd). lia.
Qed.

Lemma count_two (q : query) (l : list document) i j di dj :
  i <> j -> l !! i = Some di -> l !! j = Some dj ->
  matches q di = true -> matches q dj = true -> (2 <= count q l)%nat.
Proof.
  revert i j. induction l as [|a l IH]; intros [|i] [|j] Hne;
    cbn [lookup list_lookup]; try done.
  - intros [= ->] Hj Hdi Hdj. rewrite count_cons, Hdi.
    pose proof (count_lookup q l j dj Hj Hdj). lia.
  - intros Hi [= ->] Hdi Hdj. rewrite count_cons, Hdj.
    pose proof (count_lookup q l i di Hi Hdi). lia.
  - intros Hi Hj Hdi Hdj. rewrite count_cons.
    assert (i <> j) as Hne' by congruence.
    specialize (IH i j Hne' Hi Hj Hdi Hdj). lia.
Qed.

(** X11: [update_customer] does not keep emails unique: writing the email of one
    customer into another leaves two customers under that email. *)
Theorem update_customer_shares_email customer_id data now db i j di dj :
  unique_ids (db_customer db) ->
  i <> j ->
  db_customer db !! i = Some di ->
  db_customer db !! j = Some dj ->
  matches (ByField "email" (CustomerIn.email data)) di = true ->
  ObjectId customer_id = Return (_id dj) ->
  (2 <= count (ByField "email" (CustomerIn.email data))
          (db_customer (exec (update_customer customer_id data now) db)))%nat.
Proof.
  intros Hunique Hne Hi Hj Hdi Hid.
  pose proof (update_customer_found customer_id data now db (_id dj) j dj
                Hid Hunique Hj eq_refl) as Hrun.
  cbv zeta in Hrun. unfold exec. rewrite Hrun. cbn [fst db_customer].
  apply (count_two _ _ i j di
           (set_fields (<["updated_at" := VDatetime now]> (CustomerIn.model_dump data)) dj)
           Hne).
  - by rewrite list_lookup_insert_ne.
  - by apply list_lookup_insert_eq, lookup_lt_Some with dj.
  - done.
  - cbn. rewrite (lookup_union_Some_l _ _ "email" (VStr (CustomerIn.email data)));
      [apply String.eqb_refl|done].
Qed.

Lemma update_customer_shares_email_witness :
  (2 <= count (ByField "email" "alice@example.nz")
          (db_customer (exec (update_customer (str 1%N) alicia 3%Z) two_customers)))%nat.
Proof.
  apply (update_customer_shares_email (str 1%N) alicia 3 two_customers 0%nat 1%nat
           (Document 0%N (customer_payload alice (VDatetime 1) 1))
           (Document 1%N (customer_payload bob (VDatetime 2) 2))).
  - unfold unique_ids. refine (bool_decide_unpack _ _). by vm_compute.
  - lia.
  - by vm_compute.
  - by vm_compute.
  - by vm_compute.
  - by vm_compute.
Defined.

(** ** Inventory, further *)









(** ** Seeding, further *)

Lemma find_insert_other (q : query) (l : list document) i d d' :
  l !! i = Some d ->
  matches q d = false -> matches q d' = false ->
  find (matches q) (<[i := d']> l) = find (matches q) l.
Proof.
  revert i. induction l as [|a l IH]; intros [|i]; cbn [lookup list_lookup]; try done.
  - intros [= ->] Hd Hd'. cbn. by rewrite Hd, Hd'.
  - intros Hi Hd Hd'. cbn. destruct (matches q a); [done|]. by apply IH.
Qed.

Lemma find_app_Some (q : query) (l l' : list document) d :
  find (matches q) l = Some d -> find (matches q) (l ++ l') = Some d.
Proof.
  induction l as [|a l IH]; cbn; [done|]. by destruct (matches q a).
Qed.

Lemma seeded_seed_list item n (l : list document) :
  unique_ids l ->
  item !! "product" = Some (VStr (item_product item)) ->
  seeded item (seed_list item n l).
Proof.
  intros Hunique Hitem. unfold seeded, seed_list.
  destruct (find _ l) as [e|] eqn:Hfind.
  - destruct (find_lookup _ _ _ Hfind) as (i & Hi & He & Hfirst).
    rewrite (update_first_by_id _ _ i e Hunique Hi). cbn [fst].
    exists i, (set_fields item e). split; [|split].
    + by apply list_lookup_insert_eq, lookup_lt_Some with e.
    + apply (find_insert _ _ i e _ Hi Hfirst). cbn.
      rewrite (lookup_union_Some_l _ _ _ _ Hitem). apply String.eqb_refl.
    + cbn [fields set_fields]. by rewrite (map_union_assoc item item (fields e)), (map_union_idemp item).
  - exists (length l), (Document n item). split; [|split].
    + by rewrite lookup_app_r, Nat.sub_diag.
    + rewrite find_app_None by done. cbn. by rewrite Hitem, String.eqb_refl.
    + cbn [fields]. apply map_union_idemp.
Qed.

Lemma seeded_other item item' n (l : list document) :
  unique_ids l ->
  item_product item' <> item_product item ->
  item' !! "product" = Some (VStr (item_product item')) ->
  seeded item l ->
  seeded item (seed_list item' n l).
Proof.
  intros Hunique Hne Hitem' (i & e & Hi & Hfind & Heq). unfold seeded, seed_list.
  destruct (find_lookup _ _ _ Hfind) as (_ & _ & He & _).
  destruct (find (matches (ByField "product" (item_product item'))) l) as [e'|] eqn:Hfind'.
  - destruct (find_lookup _ _ _ Hfind') as (j & Hj & He' & _).
    rewrite (update_first_by_id _ _ j e' Hunique Hj). cbn [fst].
    assert (j <> i) as Hji.
    { intros ->. assert (e' = e) as -> by congruence.
      by pose proof (matches_product_inj _ _ _ He He'). }
    exists i, e. split; [|split; [|done]].
    + by rewrite list_lookup_insert_ne.
    + rewrite (find_insert_other _ _ j e'); [done..| |].
      * destruct (matches (ByField "product" (item_product item)) e') eqn:Hm; [|done].
        by pose proof (matches_product_inj _ _ _ Hm He').
      * cbn. rewrite (lookup_union_Some_l _ _ _ _ Hitem').
        by apply String.eqb_neq.
  - exists i, e. split; [|split; [|done]].
    + by rewrite lookup_app_l by by eapply lookup_lt_Some.
    + by apply find_app_Some.
Qed.

Lemma seed_one_seeded item (db : mongo) :
  unique_ids (db_inventory db) ->
  seeded item (db_inventory db) ->
  seed_one item db = (db, Return tt).
Proof.
  intros Hunique (i & e & Hi & Hfind & Heq).
  unfold seed_one, find_one, update_one, mbind, ret. cbn [coll]. rewrite Hfind.
  cbn [coll]. rewrite (update_first_by_id _ _ i e Hunique Hi).
  assert (set_fields item e = e) as -> by (unfold set_fields; destruct e as [o f]; cbn [_id fields] in *; by rewrite Heq).
  rewrite list_insert_id by done. by destruct db.
Qed.

Lemma defaults_product (p : Product) :
  defaults_of p !! "product" = Some (VStr (item_product (defaults_of p))).
Proof. by destruct p. Qed.

Lemma seed_defaults_seeded (db : mongo) :
  unique_ids (db_inventory db) ->
  Forall (fun d => (_id d < next_oid db)%N) (db_inventory db) ->
  exists l n,
    seed_defaults db
    = (Mongo (db_customer db) l (db_order db) n, Return (<["status" := VStr "ok"]> ∅)) /\
    unique_ids l /\
    forall p, seeded (defaults_of p) l.
Proof.
  intros Hunique Hlt.
  destruct (seed_one_run suxhuk_defaults db Hunique Hlt) as (n1 & Hrun1 & Hunique1 & Hlt1).
  destruct (seed_one_run mish_te_teren_defaults
              (Mongo (db_customer db)
                 (seed_list suxhuk_defaults (next_oid db) (db_inventory db))
                 (db_order db) n1) Hunique1 Hlt1)
    as (n2 & Hrun2 & Hunique2 & _).
  cbn [db_customer db_inventory db_order next_oid] in Hrun2, Hunique2.
  eexists _, n2. split; [|split; [exact Hunique2|]].
  - unfold seed_defaults. cbn [for_each]. unfold mbind at 1. unfold mbind at 1.
    rewrite Hrun1. unfold mbind at 1. rewrite Hrun2. reflexivity.
  - intros p. destruct p; cbn [defaults_of].
    + apply seeded_other; [exact Hunique1|discriminate|reflexivity|].
      apply seeded_seed_list; [exact Hunique|reflexivity].
    + apply seeded_seed_list; [exact Hunique1|reflexivity].
Qed.

(** X14: seeding is idempotent.  On a well-formed database, after one
    [seed_defaults] each product has a record, the first record of either
    product holds every field of the product's default row, and a second
    [seed_defaults] answers [{"status": "ok"}] and changes nothing: no
    record, no id, not the counter. *)
Theorem seed_defaults_idempotent db :
  wf db ->
  let db1 := exec seed_defaults db in
  seed_defaults db1 = (db1, Return (<["status" := VStr "ok"]> ∅)) /\
  forall p, exists d,
    find (matches (ByField "product" (product_name p))) (db_inventory db1) = Some d /\
    forall k v, defaults_of p !! k = Some v -> fields d !! k = Some v.
Proof.
  intros Hwf db1. destruct (Hwf Inventory) as [Hunique Hlt]. cbn [coll] in Hunique, Hlt.
  destruct (seed_defaults_seeded db Hunique Hlt) as (l & n & Hrun & Hunique' & Hseeded).
  assert (db1 = Mongo (db_customer db) l (db_order db) n) as ->
    by (unfold db1, exec; by rewrite Hrun).
  split.
  - unfold seed_defaults. cbn [for_each]. unfold mbind at 1. unfold mbind at 1.
    rewrite (seed_one_seeded suxhuk_defaults (Mongo (db_customer db) l (db_order db) n)
               Hunique' (Hseeded suxhuk)).
    unfold mbind at 1.
    rewrite (seed_one_seeded mish_te_teren_defaults
               (Mongo (db_customer db) l (db_order db) n)
               Hunique' (Hseeded mish_te_teren)).
    reflexivity.
  - cbn [db_inventory]. intros p.
    destruct (Hseeded p) as (i & e & _ & Hfind & Heq). exists e. split.
    + by destruct p.
    + intros k v Hk. rewrite <- Heq. by apply lookup_union_Some_l.
Qed.

Lemma seed_defaults_idempotent_witness :
  let db1 := exec seed_defaults priced_shop in
  seed_defaults db1 = (db1, Return (<["status" := VStr "ok"]> ∅)) /\
  forall p, exists d,
    find (matches (ByField "product" (product_name p))) (db_inventory db1) = Some d /\
    forall k v, defaults_of p !! k = Some v -> fields d !! k = Some v.
Proof.
  apply (seed_defaults_idempotent priced_shop).
  intros c. split.
  - unfold unique_ids. refine (bool_decide_unpack _ _). by destruct c; vm_compute.
  - refine (bool_decide_unpack _ _). by destruct c; vm_compute.
Defined.

(** ** What a request leaves alone *)

Lemma frame_update_one c c' q payload (l : list document) :
  c <> c' -> preserves (fun db => coll c db = l) (update_one c' q payload).
Proof.
  intros Hc db Hl. unfold update_one.
  destruct (update_first q payload (coll c' db)) as [l' n]. cbn [fst].
  by destruct c, c'.
Qed.

Lemma frame_insert_one c c' data (l : list document) :
  c <> c' -> preserves (fun db => coll c db = l) (insert_one c' data).
Proof.
  intros Hc db Hl. unfold insert_one.
  destruct (existsb _ _); cbn [fst]; by destruct c, c'.
Qed.

#[local] Hint Extern 1 (preserves (fun db => coll _ db = _) (update_one _ _ _)) =>
  apply frame_update_one; discriminate : preserves.
#[local] Hint Extern 1 (preserves (fun db => coll _ db = _) (insert_one _ _)) =>
  apply frame_insert_one; discriminate : preserves.

(** X15: every request leaves the collections it does not own as they are:
    customer requests write customers only, inventory requests and the seeding
    write the inventory only, a status patch writes orders only, and an order
    writes no customer. *)
Theorem handle_frame (r : request) (c : collection) (db : mongo) :
  writes r c = false -> coll c (handle r db) = coll c db.
Proof.
  intros Hw.
  enough (preserves (fun db' => coll c db' = coll c db) (fun db' => (handle r db', Return tt)))
    as H by exact (H db eq_refl).
  generalize (coll c db). intros l.
  destruct r; cbn [handle].
  all: match goal with
       | |- preserves ?P (fun db => (exec ?m db, _)) =>
           enough (preserves P m) as H by (intros db0 Hdb0; exact (H db0 Hdb0))
       end.
  - unfold upsert_customer, create_document. destruct c; try discriminate; preserve.
  - unfold update_customer. destruct c; try discriminate; preserve.
  - unfold list_inventory, create_document. destruct c; try discriminate; preserve.
  - unfold create_or_update_inventory, create_document.
    destruct c; try discriminate; preserve.
  - unfold update_inventory. destruct c; try discriminate; preserve.
  - unfold create_order, create_document. destruct c; try discriminate; preserve.
  - unfold update_order_status. destruct c; try discriminate; preserve.
  - unfold seed_defaults, seed_one, create_document. destruct c; try discriminate; preserve.
Qed.

Lemma handle_frame_witness :
  coll Customer (handle (PostOrders (order_of suxhuk 50) 10 11 12) shop)
  = coll Customer shop.
Proof.
  apply (handle_frame (PostOrders (order_of suxhuk 50) 10 11 12) Customer shop).
  reflexivity.
Defined.

(** ** Nothing is ever deleted *)

Lemma grown_update_one c c' q payload ids n :
  preserves (grown c ids n) (update_one c' q payload).
Proof.
  intros db (new & Hids & Hnew & Hn). unfold update_one.
  pose proof (update_first_ids q payload (coll c' db)) as Hsame.
  destruct (update_first q payload (coll c' db)) as [l' m]. cbn [fst] in *.
  exists new. split; [|by destruct c'].
  destruct c, c'; cbn [coll set_coll db_customer db_inventory db_order] in *;
    congruence.
Qed.

Lemma grown_insert_one c c' data ids n :
  preserves (grown c ids n) (insert_one c' data).
Proof.
  intros db (new & Hids & Hnew & Hn). unfold insert_one.
  assert (Forall (fun o => (n <= o < next_oid db + 1)%N) new) as Hnew'
    by (eapply Forall_impl; [exact Hnew|]; intros o Ho; cbn in Ho; lia).
  assert (forall db', next_oid db' = (next_oid db + 1)%N ->
            coll c db' = coll c db -> grown c ids n db') as Hkeep.
  { intros db' Hnext Hcoll. exists new. rewrite Hcoll, Hnext.
    split; [done|]. split; [done|lia]. }
  assert (forall db', next_oid db' = (next_oid db + 1)%N ->
            coll c db' = coll c db ++ [Document (next_oid db) data] ->
            grown c ids n db') as Hadd.
  { intros db' Hnext Hcoll. exists (new ++ [next_oid db]).
    rewrite Hcoll, fmap_app, Hids, Hnext, app_assoc. split; [done|]. split; [|lia].
    apply Forall_app. split; [done|]. repeat constructor; lia. }
  destruct (existsb _ _); cbn [fst].
  - apply Hkeep; [done|by destruct c].
  - destruct c, c'; first [by apply Hadd | by apply Hkeep].
Qed.

#[local] Hint Resolve grown_update_one grown_insert_one : preserves.

(** X16: no request deletes a record, moves one or changes an id: after any
    request the ids of each collection are the ids it held, in the same
    order, followed by ids drawn from the counter, which never goes back. *)
Theorem handle_append_only (r : request) (c : collection) (db : mongo) :
  exists new,
    _id <$> coll c (handle r db) = (_id <$> coll c db) ++ new /\
    Forall (fun o => (next_oid db <= o < next_oid (handle r db))%N) new /\
    (next_oid db <= next_oid (handle r db))%N.
Proof.
  change (grown c (_id <$> coll c db) (next_oid db) (handle r db)).
  enough (preserves (grown c (_id <$> coll c db) (next_oid db))
            (fun db' => (handle r db', Return tt))) as H.
  { apply (H db). exists []. by rewrite app_nil_r. }
  generalize (_id <$> coll c db) (next_oid db). intros ids n.
  destruct r; cbn [handle].
  all: match goal with
       | |- preserves ?P (fun db => (exec ?m db, _)) =>
           enough (preserves P m) as H by (intros db0 Hdb0; exact (H db0 Hdb0))
       end.
  - unfold upsert_customer, create_document. preserve.
  - unfold update_customer. preserve.
  - unfold list_inventory, create_document. preserve.
  - unfold create_or_update_inventory, create_document. preserve.
  - unfold update_inventory. preserve.
  - unfold create_order, create_document. preserve.
  - unfold update_order_status. preserve.
  - unfold seed_defaults, seed_one, create_document. preserve.
Qed.

(** ** Status patches, further *)

Lemma update_first_twice o p1 p2 (l : list document) :
  (forall f : gmap string value, p2 ∪ (p1 ∪ f) = p2 ∪ f) ->
  update_first (ById o) p2 (fst (update_first (ById o) p1 l))
  = update_first (ById o) p2 l.
Proof.
  intros Hp. induction l as [|d l IH]; [done|]. cbn [update_first].
  destruct (matches (ById o) d) eqn:Hd.
  - cbn [fst update_first]. change (matches (ById o) (set_fields p1 d)) with (matches (ById o) d).
    rewrite Hd. unfold set_fields. cbn [_id fields]. by rewrite Hp.
  - destruct (update_first (ById o) p1 l) as [l1 n1]. cbn [fst update_first] in *.
    by rewrite Hd, IH.
Qed.

Lemma status_payload_twice (s1 s2 : Status) (t1 t2 : time) (f : gmap string value) :
  <["status" := VStr (status_name s2)]> (<["updated_at" := VDatetime t2]> ∅)
  ∪ (<["status" := VStr (status_name s1)]> (<["updated_at" := VDatetime t1]> ∅) ∪ f)
  = <["status" := VStr (status_name s2)]> (<["updated_at" := VDatetime t2]> ∅) ∪ f.
Proof.
  rewrite (map_union_assoc _ _ f). by f_equal.
Qed.

(** X17: the last status patch wins.  Patching an order twice gives the answer
    and the database of the second patch alone, whatever the first one was
    and whether or not the order exists: nothing of the first patch, its
    status or its [updated_at], survives. *)
Theorem update_order_status_last_wins order_id body1 body2 now1 now2 db :
  update_order_status order_id body2 now2
    (exec (update_order_status order_id body1 now1) db)
  = update_order_status order_id body2 now2 db.
Proof.
  unfold exec.
  unfold update_order_status at 2. unfold try_except, pure. unfold mbind at 1 2.
  destruct (ObjectId order_id) as [o|e] eqn:Ho; [|done]. unfold mbind at 1.
  unfold update_one at 1. cbn [coll].
  pose proof (update_first_twice o _ _ (db_order db)
                (status_payload_twice (OrderStatusUpdate.status body1)
                   (OrderStatusUpdate.status body2) now1 now2)) as Htwice.
  destruct (update_first (ById o) _ (db_order db)) as [l1 n1]. cbn [fst] in Htwice.
  assert (update_order_status order_id body2 now2 (set_coll Order l1 db)
          = update_order_status order_id body2 now2 db) as Hsame.
  { unfold update_order_status, try_except, pure, update_one, mbind.
    rewrite Ho. cbn [coll set_coll db_customer db_inventory db_order next_oid].
    rewrite Htwice. by destruct (update_first (ById o) _ (db_order db)). }
  destruct (n1 =? 0).
  - cbn [raise fst]. exact Hsame.
  - unfold find_one, mbind. cbn [coll set_coll db_order].
    destruct (to_str_id _); cbn [raise response ret fst]; exact Hsame.
Qed.

(** ** Listing customers *)

(** X18: a customer just upserted is listed.  On a well-formed database whose
    counter fits an id, [upsert_customer] answers with an entry, and
    [list_customers] afterwards writes nothing and lists that same entry,
    among one entry per stored customer, in insertion order. *)
Theorem upsert_then_list data now db :
  wf db ->
  (next_oid db < 2 ^ 96)%N ->
  let db' := exec (upsert_customer data now) db in
  exists e,
    upsert_customer data now db = (db', Return e) /\
    list_customers db' = (db', Return (entry <$> db_customer db')) /\
    e ∈ entry <$> db_customer db' /\
    e !! "email" = Some (VStr (CustomerIn.email data)).
Proof.
  intros Hwf Hbound db'. destruct (Hwf Customer) as [Hunique Hlt]. cbn [coll] in *.
  assert (list_customers db' = (db', Return (entry <$> db_customer db'))) as Hlist.
  { unfold list_customers, get_documents. unfold mbind at 1. cbn [coll].
    apply traverse_entries. }
  assert (forall d created_at, fields d = customer_payload data created_at now ∪ fields d ->
            entry d !! "email" = Some (VStr (CustomerIn.email data))) as Hemail.
  { intros d created_at Hd. unfold entry.
    rewrite lookup_fmap, lookup_insert_ne by done. rewrite Hd.
    by rewrite (lookup_union_Some_l _ _ _ _ (customer_payload_email _ _ _)). }
  destruct (find (matches (ByField "email" (CustomerIn.email data))) (db_customer db))
    as [e|] eqn:Hfind.
  - destruct (find_lookup _ _ _ Hfind) as (i & Hi & He & Hfirst).
    pose proof (upsert_customer_run_update data now db e i Hunique Hfind Hi) as Hrun.
    cbv zeta in Hrun.
    set (d := set_fields (customer_payload data (get (fields e) "created_at") now) e)
      in *.
    assert (db' = Mongo (<[i := d]> (db_customer db)) (db_inventory db) (db_order db)
                    (next_oid db)) as Hdb' by (unfold db', exec; by rewrite Hrun).
    exists (entry d). rewrite Hrun, <- Hdb'. split; [done|]. split; [done|]. split.
    + rewrite Hdb'. cbn [db_customer]. apply list_elem_of_fmap_2.
      eapply list_elem_of_lookup_2.
      by apply list_lookup_insert_eq, lookup_lt_Some with e.
    + apply (Hemail d (get (fields e) "created_at")). unfold d. cbn [fields set_fields].
      by rewrite (map_union_assoc _ _ (fields e)), (map_union_idemp _).
  - pose proof (upsert_customer_run_insert data now db Hwf Hbound Hfind) as Hrun.
    cbv zeta in Hrun.
    set (d := Document (next_oid db) (customer_payload data (VDatetime now) now)) in *.
    assert (db' = Mongo (db_customer db ++ [d]) (db_inventory db) (db_order db)
                    (next_oid db + 1)%N) as Hdb' by (unfold db', exec; by rewrite Hrun).
    exists (entry d). rewrite Hrun, <- Hdb'. split; [done|]. split; [done|]. split.
    + rewrite Hdb'. cbn [db_customer]. apply list_elem_of_fmap_2.
      apply elem_of_app. right. by apply list_elem_of_singleton.
    + apply (Hemail d (VDatetime now)). unfold d. cbn [fields].
      by rewrite (map_union_idemp _).
Qed.

Lemma upsert_then_list_witness :
  let db' := exec (upsert_customer bob 2) registered in
  exists e,
    upsert_customer bob 2 registered = (db', Return e) /\
    list_customers db' = (db', Return (entry <$> db_customer db')) /\
    e ∈ entry <$> db_customer db' /\
    e !! "email" = Some (VStr (CustomerIn.email bob)).
Proof.
  apply (upsert_then_list bob 2 registered).
  - intros c. split.
    + unfold unique_ids. refine (bool_decide_unpack _ _). by destruct c; vm_compute.
    + refine (bool_decide_unpack _ _). by destruct c; vm_compute.
  - by vm_compute.
Defined.

(** ** Reachable states *)

Lemma reachable_invariant_witness :
  wf shop /\ one_record_per_product (db_inventory shop).
Proof.
  apply (reachable_invariant shop).
  exact (reachable_handle GetInventory _
           (reachable_handle (PostCustomers alice 1) _ (reachable_empty 0%N))).
Defined.
